(** * xmpptalk: the presence-aware relay bot of [main.py]

    A shallow embedding of the [ChatBot] class: the presence store
    ([defaultdict(dict)]), the online-set query, display-name resolution and
    the message router, with the properties of the specification stated and
    settled against it.

    Conventions.
    - A Python [str] is the list of its code points ([list N]); [bytes] and
      32-bit words are [Z] with the wrap-around written out.
    - A [dict] is a [gmap]; the roster (contact list) is the list of its
      items in iteration order.
    - A method is a function in the monad [M]: it threads the bot's state and
      either returns or raises, the state changes made before a raise being
      kept, as in Python. *)

From Stdlib Require Import Ascii String.
From stdpp Require Import base option list gmap.

Local Open Scope Z_scope.

(** ** Text *)

Abbreviation pystr := (list N) (only parsing).

(** An ASCII literal as a Python string. *)
Definition lit (s : string) : pystr := N_of_ascii <$> list_ascii_of_string s.

(** [str.isspace] on one character: the code points Python treats as
    whitespace when [str.split] is called without a separator. *)
Definition isspace (c : N) : bool :=
  ((0x09 <=? c) && (c <=? 0x0D) || (0x1C <=? c) && (c <=? 0x20)
   || (c =? 0x85) || (c =? 0xA0) || (c =? 0x1680)
   || (0x2000 <=? c) && (c <=? 0x200A)
   || (c =? 0x2028) || (c =? 0x2029) || (c =? 0x202F) || (c =? 0x205F)
   || (c =? 0x3000))%N.

(** [s.startswith(p)] *)
Fixpoint startswith (s p : pystr) {struct p} : bool :=
  match p, s with
  | [], _ => true
  | _ :: _, [] => false
  | a :: p', b :: s' => (a =? b)%N && startswith s' p'
  end.

(** Skipping a run of whitespace, and reading up to the next whitespace. *)
Fixpoint lstrip (s : pystr) : pystr :=
  match s with
  | c :: s' => if isspace c then lstrip s' else s
  | [] => []
  end.

Fixpoint span_word (s : pystr) : pystr * pystr :=
  match s with
  | c :: s' =>
      if isspace c then ([], s)
      else let '(w, r) := span_word s' in (c :: w, r)
  | [] => ([], [])
  end.

(** [s.split(None, 1)]: leading whitespace is dropped; the first word is cut
    off; the whitespace after it is dropped; what remains, if anything, is the
    second element, trailing whitespace included. *)
Definition split_none_1 (s : pystr) : list pystr :=
  match lstrip s with
  | [] => []
  | c :: t =>
      let '(w, r) := span_word (c :: t) in
      match lstrip r with
      | [] => [w]
      | rest => [w; rest]
      end
  end.

(** [s.encode()]: UTF-8.  The strings encoded here are parts of a JID, which
    hold Unicode scalar values. *)
Definition utf8_char (c : N) : list Z :=
  let z := Z.of_N c in
  if z <? 0x80 then [z]
  else if z <? 0x800 then
    [Z.lor 0xC0 (Z.shiftr z 6); Z.lor 0x80 (Z.land z 0x3F)]
  else if z <? 0x10000 then
    [Z.lor 0xE0 (Z.shiftr z 12); Z.lor 0x80 (Z.land (Z.shiftr z 6) 0x3F);
     Z.lor 0x80 (Z.land z 0x3F)]
  else
    [Z.lor 0xF0 (Z.shiftr z 18); Z.lor 0x80 (Z.land (Z.shiftr z 12) 0x3F);
     Z.lor 0x80 (Z.land (Z.shiftr z 6) 0x3F); Z.lor 0x80 (Z.land z 0x3F)].

Definition encode (s : pystr) : list Z := s ≫= utf8_char.

(** ** [hashlib.md5] *)

Module MD5.

Definition w32 (x : Z) : Z := x mod 2 ^ 32.
Definition not32 (x : Z) : Z := Z.lxor x 0xFFFFFFFF.
Definition rotl32 (x c : Z) : Z :=
  w32 (Z.lor (Z.shiftl x c) (Z.shiftr x (32 - c))).

Definition K : list Z :=
  [0xd76aa478; 0xe8c7b756; 0x242070db; 0xc1bdceee;
   0xf57c0faf; 0x4787c62a; 0xa8304613; 0xfd469501;
   0x698098d8; 0x8b44f7af; 0xffff5bb1; 0x895cd7be;
   0x6b901122; 0xfd987193; 0xa679438e; 0x49b40821;
   0xf61e2562; 0xc040b340; 0x265e5a51; 0xe9b6c7aa;
   0xd62f105d; 0x02441453; 0xd8a1e681; 0xe7d3fbc8;
   0x21e1cde6; 0xc33707d6; 0xf4d50d87; 0x455a14ed;
   0xa9e3e905; 0xfcefa3f8; 0x676f02d9; 0x8d2a4c8a;
   0xfffa3942; 0x8771f681; 0x6d9d6122; 0xfde5380c;
   0xa4beea44; 0x4bdecfa9; 0xf6bb4b60; 0xbebfbc70;
   0x289b7ec6; 0xeaa127fa; 0xd4ef3085; 0x04881d05;
   0xd9d4d039; 0xe6db99e5; 0x1fa27cf8; 0xc4ac5665;
   0xf4292244; 0x432aff97; 0xab9423a7; 0xfc93a039;
   0x655b59c3; 0x8f0ccc92; 0xffeff47d; 0x85845dd1;
   0x6fa87e4f; 0xfe2ce6e0; 0xa3014314; 0x4e0811a1;
   0xf7537e82; 0xbd3af235; 0x2ad7d2bb; 0xeb86d391].

Definition shifts : list Z :=
  [7; 12; 17; 22; 7; 12; 17; 22; 7; 12; 17; 22; 7; 12; 17; 22;
   5; 9; 14; 20; 5; 9; 14; 20; 5; 9; 14; 20; 5; 9; 14; 20;
   4; 11; 16; 23; 4; 11; 16; 23; 4; 11; 16; 23; 4; 11; 16; 23;
   6; 10; 15; 21; 6; 10; 15; 21; 6; 10; 15; 21; 6; 10; 15; 21].

Definition regs : Type := Z * Z * Z * Z.

Definition init : regs := (0x67452301, 0xefcdab89, 0x98badcfe, 0x10325476).

(** One of the 64 operations on a block of sixteen words [m]. *)
Definition step (m : list Z) (r : regs) (i : nat) : regs :=
  let '(a, b, c, d) := r in
  let '(f, g) :=
    if (i <? 16)%nat then
      (Z.lor (Z.land b c) (Z.land (not32 b) d), i)
    else if (i <? 32)%nat then
      (Z.lor (Z.land d b) (Z.land (not32 d) c), ((5 * i + 1) mod 16)%nat)
    else if (i <? 48)%nat then
      (Z.lxor (Z.lxor b c) d, ((3 * i + 5) mod 16)%nat)
    else
      (Z.lxor c (Z.lor b (not32 d)), ((7 * i) mod 16)%nat) in
  let f' := w32 (f + a + K !!! i + m !!! g) in
  (d, w32 (b + rotl32 f' (shifts !!! i)), b, c).

Definition le32 (bs : list Z) : Z :=
  foldr (λ b acc, b + 256 * acc) 0 (take 4 bs).

Fixpoint words (n : nat) (bs : list Z) : list Z :=
  match n with
  | O => []
  | S n' => le32 bs :: words n' (drop 4 bs)
  end.

Definition block (r : regs) (bs : list Z) : regs :=
  let '(a0, b0, c0, d0) := r in
  let '(a, b, c, d) := foldl (step (words 16 bs)) r (seq 0 64) in
  (w32 (a0 + a), w32 (b0 + b), w32 (c0 + c), w32 (d0 + d)).

Fixpoint blocks (n : nat) (r : regs) (bs : list Z) : regs :=
  match n with
  | O => r
  | S n' => blocks n' (block r bs) (drop 64 bs)
  end.

Fixpoint le_bytes (n : nat) (x : Z) : list Z :=
  match n with
  | O => []
  | S n' => x mod 256 :: le_bytes n' (x / 256)
  end.

Definition pad (msg : list Z) : list Z :=
  let len := Z.of_nat (length msg) in
  msg ++ [0x80] ++ replicate (Z.to_nat ((55 - len) mod 64)) 0
      ++ le_bytes 8 ((8 * len) mod 2 ^ 64).

Definition digest (msg : list Z) : list Z :=
  let p := pad msg in
  let '(a, b, c, d) := blocks (length p / 64) init p in
  le_bytes 4 a ++ le_bytes 4 b ++ le_bytes 4 c ++ le_bytes 4 d.

Definition hexchar (x : Z) : N :=
  Z.to_N (if x <? 10 then 48 + x else 87 + x).

Definition hexdigest (msg : list Z) : pystr :=
  digest msg ≫= (λ b, [hexchar (b / 16); hexchar (b mod 16)]).

End MD5.

(** ** Identities *)

(** A JID as pyxmpp2 holds it: the part before [@] (absent for a bare
    domain), the domain, and the resource naming one session (absent on a
    bare JID).  Two JIDs are equal when the three parts are. *)
Record JID : Type := mkJID {
  local : option pystr;
  domain : pystr;
  resource : option pystr
}.

Global Instance JID_eq_dec : EqDecision JID.
Proof. solve_decision. Defined.

Global Instance JID_countable : Countable JID.
Proof.
  apply (inj_countable'
    (λ j, (local j, domain j, resource j))
    (λ t, mkJID t.1.1 t.1.2 t.2)).
  by intros [].
Defined.

(** [jid.bare()] *)
Definition bare (j : JID) : JID := mkJID (local j) (domain j) None.

(** ['%s' % x] for a value that is a string or [None]. *)
Definition fmt_s (o : option pystr) : pystr :=
  match o with
  | Some s => s
  | None => lit "None"
  end.

(** [bool(x)] for a value that is a string or [None], and [x or y]. *)
Definition truthy (o : option pystr) : bool :=
  match o with
  | Some (_ :: _) => true
  | _ => false
  end.

Definition py_or (o : option pystr) (y : pystr) : pystr :=
  match o with
  | Some (c :: s) => c :: s
  | _ => y
  end.

(** ** Stanzas, roster items, log records *)

Module Presence.
(** An inbound presence stanza, with the attributes the handlers read. *)
Record t : Type := mk {
  stanza_type : option pystr;
  from_jid : JID;
  show : option pystr;
  status : option pystr;
  priority : Z
}.
End Presence.

Module Message.
(** A message stanza, inbound or built by [send_message]. *)
Record t : Type := mk {
  stanza_type : option pystr;
  from_jid : JID;
  to_jid : JID;
  body : option pystr
}.
End Message.

(** The value stored per session: the dict with the keys ['show'],
    ['status'] and ['priority']. *)
Record PresenceInfo : Type := mkInfo {
  info_show : option pystr;
  info_status : option pystr;
  info_priority : Z
}.

(** An item of the roster, with the attributes the bot reads. *)
Record RosterItem : Type := mkItem {
  jid : JID;
  name : option pystr;
  subscription : option pystr
}.

(** Arguments of a [logging] call. *)
Inductive pyval : Type :=
  | VInt (z : Z)
  | VStr (s : pystr)
  | VJid (j : JID)
  | VJids (l : list JID).

(** A record handed to [logging.info]: the format and its arguments. *)
Record LogRecord : Type := mkLog {
  log_msg : pystr;
  log_args : list pyval
}.

(** ** The bot's state and the monad of its methods *)

Record ChatBot : Type := mkBot {
  self_jid : JID;                                       (* self.jid *)
  roster : list RosterItem;                             (* self.client.roster *)
  presence : gmap JID (gmap (option pystr) PresenceInfo); (* self.presence *)
  sent : list Message.t;                                (* self.client.stream *)
  log : list LogRecord                                  (* logging *)
}.

Inductive exn : Type := IndexError | KeyError | JIDError.

Global Instance exn_eq_dec : EqDecision exn.
Proof. solve_decision. Defined.

Inductive Outcome (A : Type) : Type :=
  | Ok (a : A) (st : ChatBot)
  | Raise (e : exn) (st : ChatBot).
Arguments Ok {A} a st.
Arguments Raise {A} e st.

Definition M (A : Type) : Type := ChatBot → Outcome A.

Global Instance M_ret : MRet M := λ A a st, Ok a st.

Global Instance M_bind : MBind M := λ A B f m st,
  match m st with
  | Ok a st' => f a st'
  | Raise e st' => Raise e st'
  end.

Definition raise {A : Type} (e : exn) : M A := λ st, Raise e st.

(** [try: m except e: h] *)
Definition try_except {A : Type} (m : M A) (e : exn) (h : M A) : M A := λ st,
  match m st with
  | Ok a st' => Ok a st'
  | Raise e' st' => if decide (e' = e) then h st' else Raise e' st'
  end.

(** The state a call leaves behind, whether it returned or raised. *)
Definition final {A : Type} (o : Outcome A) : ChatBot :=
  match o with
  | Ok _ st => st
  | Raise _ st => st
  end.

(** Assignments to one part of the state. *)
Definition with_roster (r : list RosterItem) (st : ChatBot) : ChatBot :=
  mkBot (self_jid st) r (presence st) (sent st) (log st).

Definition with_presence (p : gmap JID (gmap (option pystr) PresenceInfo))
    (st : ChatBot) : ChatBot :=
  mkBot (self_jid st) (roster st) p (sent st) (log st).

Definition with_sent (s : list Message.t) (st : ChatBot) : ChatBot :=
  mkBot (self_jid st) (roster st) (presence st) s (log st).

Definition with_log (l : list LogRecord) (st : ChatBot) : ChatBot :=
  mkBot (self_jid st) (roster st) (presence st) (sent st) l.

Definition get_roster : M (list RosterItem) := λ st, Ok (roster st) st.

Definition set_roster (r : list RosterItem) : M () := λ st,
  Ok () (with_roster r st).

Definition get_presence : M (gmap JID (gmap (option pystr) PresenceInfo)) :=
  λ st, Ok (presence st) st.

Definition set_presence (p : gmap JID (gmap (option pystr) PresenceInfo)) : M () :=
  λ st, Ok () (with_presence p st).

(** [logging.info(msg, *args)] *)
Definition logging_info (msg : pystr) (args : list pyval) : M () := λ st,
  Ok () (with_log (log st ++ [mkLog msg args]) st).

(** [for x in xs: f x] *)
Fixpoint for_each {A : Type} (xs : list A) (f : A → M ()) : M () :=
  match xs with
  | [] => mret ()
  | x :: xs' => f x ;; for_each xs' f
  end.

(** *** The presence store: a [defaultdict(dict)] *)

(** [self.presence[k]]: a missing key is first bound to a new empty dict. *)
Definition defaultdict_getitem (k : JID) : M (gmap (option pystr) PresenceInfo) :=
  p ← get_presence;
  match p !! k with
  | Some d => mret d
  | None => set_presence (<[k := ∅]> p) ;; mret ∅
  end.

(** [self.presence[k][r] = v]: the inner dict, reached through
    [defaultdict_getitem], is updated in place. *)
Definition presence_setitem (k : JID) (r : option pystr) (v : PresenceInfo) : M () :=
  d ← defaultdict_getitem k;
  p ← get_presence;
  set_presence (<[k := <[r := v]> d]> p).

(** [del self.presence[k][r]]: [KeyError] when the inner dict has no [r]. *)
Definition presence_delitem (k : JID) (r : option pystr) : M () :=
  d ← defaultdict_getitem k;
  match d !! r with
  | Some _ => p ← get_presence; set_presence (<[k := delete r d]> p)
  | None => raise KeyError
  end.

(** *** The roster *)

(** [self.roster[j]]: the item of that JID, [KeyError] when there is none. *)
Definition roster_getitem (j : JID) : M RosterItem :=
  r ← get_roster;
  match find (λ x, bool_decide (jid x = j)) r with
  | Some x => mret x
  | None => raise KeyError
  end.

(** Modelled from the spec: the roster client's [update_item] is part of
    pyxmpp2 and not of [main.py].  The specification gives its contract as
    [upsertName(baseIdentity, name)] and [updateEntry(baseIdentity, name,
    groups)]: the entry of that identity gets the display name; an identity
    without an entry gets one, with no subscription yet. *)
Fixpoint update_item (j : JID) (n : pystr) (r : list RosterItem) : list RosterItem :=
  match r with
  | [] => [mkItem j (Some n) (Some (lit "none"))]
  | x :: r' =>
      if bool_decide (jid x = j) then mkItem (jid x) (Some n) (subscription x) :: r'
      else x :: update_item j n r'
  end.

(** [ChatBot.__init__], once connected under [my_jid]: nobody is present. *)
Definition new_bot (my_jid : JID) (r : list RosterItem) : ChatBot :=
  mkBot my_jid r ∅ [] [].

(** ** Subscription handlers

    The four handlers of the subscription handshake.  They log a text made
    with [str.format] from the sender's JID; how pyxmpp2 prints a JID, as
    [str] and as [repr], is the library's and is taken as given. *)


Section Subscriptions.

(** [str(jid)] and [repr(jid)] *)
Variables jid_str jid_repr : JID → pystr.





End Subscriptions.

(** ** A sample deployment

    The bot, three contacts, two of them of subscription ['both'], and one
    session of each contact marked available. *)
Definition example_salt : list Z := encode (lit "salt").

Definition bot_jid : JID :=
  mkJID (Some (lit "bot")) (lit "example.org") (Some (lit "xmpptalk")).
Definition alice : JID := mkJID (Some (lit "alice")) (lit "example.org") None.
Definition alice_phone : JID :=
  mkJID (Some (lit "alice")) (lit "example.org") (Some (lit "phone")).
Definition bob : JID := mkJID (Some (lit "bob")) (lit "example.org") None.
Definition bob_pc : JID :=
  mkJID (Some (lit "bob")) (lit "example.org") (Some (lit "pc")).
Definition carol : JID := mkJID (Some (lit "carol")) (lit "example.org") None.

Definition example_roster : list RosterItem :=
  [mkItem alice (Some (lit "Alice")) (Some (lit "both"));
   mkItem bob None (Some (lit "both"));
   mkItem carol None (Some (lit "to"))].

Definition here (j : JID) : Presence.t := Presence.mk None j None None 0.

Definition gone (j : JID) : Presence.t :=
  Presence.mk (Some (lit "unavailable")) j None None 0.

Definition says (j : JID) (text : string) : Message.t :=
  Message.mk (Some (lit "chat")) j bot_jid (Some (lit text)).

(** The handlers call [get_name] with JIDs only, so that no run consults
    [JID(text)] (see [run_any_parser]); the examples are given one that
    makes nothing of any text. *)
Definition no_text : pystr → option JID := λ _, None.

Definition example_state : ChatBot :=
  mkBot bot_jid example_roster
    (<[alice := {[Some (lit "phone") := mkInfo None None 0]}]>
       (<[bob := {[Some (lit "pc") := mkInfo None None 0]}]>
          {[carol := {[None := mkInfo None None 0]}]}))
    []
    ((λ j, mkLog (lit "%s[%s]") [VJid j; VStr (lit "available")])
     <$> [alice_phone; bob_pc; carol]).

Section Bot.

(** [config.salt]: the secret of the deployment, a [bytes] value. *)
Variable salt : list Z.

(** [hashjid]; the [lru_cache] around it memoises a pure function and is not
    modelled. *)
Definition hashjid (jid : JID) : pystr :=
  let bare_text := fmt_s (local jid) ++ lit "/" ++ domain jid in
  let domain := take 6 (MD5.hexdigest (encode bare_text ++ salt)) in
  fmt_s (local jid) ++ lit "@" ++ domain.

(** [JID(text)], the constructor of pyxmpp2 on a string: the JID the library
    makes of the text, with its validation and normalisation, or nothing
    when it raises [JIDError].  The library is not part of [main.py]; what
    the constructor gives is taken as given. *)
Variable parse_jid : pystr → option JID.

Definition JID_of_str (s : pystr) : M JID :=
  match parse_jid s with
  | Some j => mret j
  | None => raise JIDError
  end.

(** *** Presence handlers *)

Definition handle_presence_available (stanza : Presence.t) : M bool :=
  if bool_decide (Presence.stanza_type stanza ∉ [Some (lit "available"); None])
  then mret false
  else
    let jid := Presence.from_jid stanza in
    presence_setitem (bare jid) (resource jid)
      (mkInfo (Presence.show stanza) (Presence.status stanza)
         (Presence.priority stanza)) ;;
    logging_info (lit "%s[%s]")
      [VJid jid; VStr (py_or (Presence.show stanza) (lit "available"))] ;;
    mret true.

Definition handle_presence_unavailable (stanza : Presence.t) : M bool :=
  let jid := Presence.from_jid stanza in
  try_except
    (presence_delitem (bare jid) (resource jid) ;;
     logging_info (lit "%s[unavailable]") [VJid jid])
    KeyError
    (mret ()) ;;
  mret true.

(** *** Queries and sending *)

(** The list comprehension of [get_online_users]: [and] evaluates
    [self.presence[x.jid]] only for an item whose subscription is ['both']. *)
Fixpoint online_filter (xs : list RosterItem) : M (list RosterItem) :=
  match xs with
  | [] => mret []
  | x :: xs' =>
      keep ← (if bool_decide (subscription x = Some (lit "both")) then
                d ← defaultdict_getitem (jid x);
                mret (bool_decide (d ≠ ∅))
              else mret false);
      rest ← online_filter xs';
      mret (if keep : bool then x :: rest else rest)
  end.

Definition get_online_users : M (list RosterItem) :=
  r ← get_roster;
  ret ← online_filter r;
  logging_info (lit "%d online buddies: %r")
    [VInt (Z.of_nat (length ret)); VJids (jid <$> ret)] ;;
  mret ret.

(** [self.send(Message(stanza_type='chat', from_jid=self.jid, to_jid=receiver,
    body=msg))] *)
Definition send_message (receiver : JID) (msg : pystr) : M () := λ st,
  Ok () (with_sent
           (sent st
            ++ [Message.mk (Some (lit "chat")) (self_jid st) receiver (Some msg)])
           st).

Definition update_roster (j : JID) (n : pystr) : M () :=
  r ← get_roster;
  set_roster (update_item j n r).

(** The argument of [get_name]: a string or a JID. *)
Inductive identity : Type :=
  | OfStr (s : pystr)
  | OfJID (j : JID).

Definition get_name (arg : identity) : M pystr :=
  jid ← match arg with
        | OfStr s => JID_of_str s
        | OfJID j => mret (bare j)
        end;
  try_except
    (x ← roster_getitem jid; mret (py_or (name x) (hashjid jid)))
    KeyError
    (mret (hashjid jid)).

Definition send_to_all (sender : JID) (msg : pystr) : M () :=
  n ← get_name (OfJID sender);
  let msg := lit "[" ++ n ++ lit "] " ++ msg in
  us ← get_online_users;
  for_each us (λ u,
    if bool_decide (jid u ≠ sender) then send_message (jid u) msg else mret ()).

(** *** The message router *)

(** The confirmation sent to the requester of a nickname. *)
Definition nick_updated : pystr :=
  [0x6635; 0x79F0; 0x66F4; 0x65B0; 0x6210; 0x529F; 0xFF01]%N.

(** ['%s 的昵称已更新为 %s。' % (old_nick, nick)] *)
Definition nick_announcement (old_nick nick : pystr) : pystr :=
  old_nick
  ++ [0x20; 0x7684; 0x6635; 0x79F0; 0x5DF2; 0x66F4; 0x65B0; 0x4E3A; 0x20]%N
  ++ nick ++ [0x3002%N].

(** [l[i]] on a list *)
Definition list_getitem {A : Type} (l : list A) (i : nat) : M A :=
  match l !! i with
  | Some x => mret x
  | None => raise IndexError
  end.

Definition handle_message (stanza : Message.t) : M bool :=
  match Message.body stanza with
  | None => mret true
  | Some body =>
      let sender := Message.from_jid stanza in
      let bare := bare sender in
      logging_info (lit "[%s] %s") [VJid bare; VStr body] ;;
      (if bool_decide (body = lit "ping") then
         send_message bare (lit "pong")
       else if startswith body (lit "-nick ") then
         nick ← list_getitem (split_none_1 body) 1;
         old_nick ← get_name (OfJID sender);
         update_roster bare nick ;;
         send_message sender nick_updated ;;
         let msg := nick_announcement old_nick nick in
         us ← get_online_users;
         for_each us (λ u,
           if bool_decide (jid u ≠ bare) then send_message (jid u) msg
           else mret ())
       else send_to_all bare body) ;;
      mret true
  end.

(** *** Runs *)

(** What the event loop and the roster client do to the bot, one at a time:
    a stanza handed to one of the handlers, a query of the online set, a
    roster received from the server. *)
Inductive Call : Type :=
  | available (s : Presence.t)
  | unavailable (s : Presence.t)
  | message (m : Message.t)
  | online
  | roster_push (r : list RosterItem).

Definition run_call (st : ChatBot) (c : Call) : ChatBot :=
  match c with
  | available s => final (handle_presence_available s st)
  | unavailable s => final (handle_presence_unavailable s st)
  | message m => final (handle_message m st)
  | online => final (get_online_users st)
  | roster_push r => final (set_roster r st)
  end.

Definition run (calls : list Call) (st : ChatBot) : ChatBot :=
  foldl run_call st calls.


(** ** Views of the state used in the statements *)

(** The sessions recorded for [k], an unknown [k] having none:
    [self.presence.get(k, {})]. *)
Definition records (p : gmap JID (gmap (option pystr) PresenceInfo)) (k : JID)
    : gmap (option pystr) PresenceInfo :=
  default ∅ (p !! k).

(** The record of one session, if there is one. *)
Definition session (p : gmap JID (gmap (option pystr) PresenceInfo)) (k : JID)
    (r : option pystr) : option PresenceInfo :=
  records p k !! r.

(** [isPresent]: the identity has at least one presence record. *)
Definition isPresent (p : gmap JID (gmap (option pystr) PresenceInfo)) (k : JID)
    : Prop :=
  ∃ r v, session p k r = Some v.

(** What reading [self.presence[k]] leaves in the store. *)
Definition touch (k : JID) (p : gmap JID (gmap (option pystr) PresenceInfo))
    : gmap JID (gmap (option pystr) PresenceInfo) :=
  match p !! k with
  | Some _ => p
  | None => <[k := ∅]> p
  end.

Definition is_both (x : RosterItem) : Prop := subscription x = Some (lit "both").

(** The store after the comprehension of [get_online_users] went over [xs]. *)
Definition touch_both (xs : list RosterItem)
    (p : gmap JID (gmap (option pystr) PresenceInfo))
    : gmap JID (gmap (option pystr) PresenceInfo) :=
  foldl (λ q x, if decide (is_both x) then touch (jid x) q else q) p xs.

(** The online set as the specification words it. *)
Definition online_users (r : list RosterItem)
    (p : gmap JID (gmap (option pystr) PresenceInfo)) : list RosterItem :=
  filter (λ x, is_both x ∧ records p (jid x) ≠ ∅) r.

(** The display name as the specification words it: the stored name when it
    is not empty, else the pseudonym. *)
Definition display_name (r : list RosterItem) (j : JID) : pystr :=
  match find (λ x, bool_decide (jid x = j)) r with
  | Some x => if truthy (name x) then fmt_s (name x) else hashjid j
  | None => hashjid j
  end.

(** A chat message of the bot [me]. *)
Definition chat (me receiver : JID) (text : pystr) : Message.t :=
  Message.mk (Some (lit "chat")) me receiver (Some text).

(** One copy of [text] for every item of [us] but the ones of [b]. *)
Definition deliveries (me b : JID) (text : pystr) (us : list RosterItem)
    : list Message.t :=
  (λ u, chat me (jid u) text) <$> filter (λ u, jid u ≠ b) us.

(** The state [get_online_users] leaves. *)
Definition online_state (st : ChatBot) : ChatBot :=
  with_log
    (log st
     ++ [mkLog (lit "%d online buddies: %r")
           [VInt (Z.of_nat (length (online_users (roster st) (presence st))));
            VJids (jid <$> online_users (roster st) (presence st))]])
    (with_presence (touch_both (roster st) (presence st)) st).

(** The state after [text] went to everybody online but [b]. *)
Definition broadcast_state (b : JID) (text : pystr) (st : ChatBot) : ChatBot :=
  with_sent
    (sent st
     ++ deliveries (self_jid st) b text (online_users (roster st) (presence st)))
    (online_state st).

(** The state in which [handle_message] starts the announcement of a new
    nickname: the message logged, the roster updated, the requester told. *)
Definition nick_state (sender : JID) (body nick : pystr) (st : ChatBot) : ChatBot :=
  with_sent (sent st ++ [chat (self_jid st) sender nick_updated])
    (with_roster (update_item (bare sender) nick (roster st))
       (with_log (log st ++ [mkLog (lit "[%s] %s") [VJid (bare sender); VStr body]])
          st)).

(** The stanza types [handle_presence_available] takes. *)
Definition accepted (s : Presence.t) : Prop :=
  Presence.stanza_type s ∈ [Some (lit "available"); None].

(** The record [handle_presence_available] stores for a stanza. *)
Definition info_of (s : Presence.t) : PresenceInfo :=
  mkInfo (Presence.show s) (Presence.status s) (Presence.priority s).

(** [c] is a [markAvailable] of the session [(k, r)]: an availability stanza
    of a type the handler takes, sent by that session. *)
Definition announces (c : Call) (k : JID) (r : option pystr) : Prop :=
  match c with
  | available s =>
      accepted s ∧ bare (Presence.from_jid s) = k
      ∧ resource (Presence.from_jid s) = r
  | _ => False
  end.

(** [c] is a [markUnavailable] of the session [(k, r)]. *)
Definition withdraws (c : Call) (k : JID) (r : option pystr) : Prop :=
  match c with
  | unavailable u =>
      bare (Presence.from_jid u) = k ∧ resource (Presence.from_jid u) = r
  | _ => False
  end.

Global Instance announces_dec c k r : Decision (announces c k r).
Proof. destruct c; simpl; apply _. Defined.

Global Instance withdraws_dec c k r : Decision (withdraws c k r).
Proof. destruct c; simpl; apply _. Defined.

(** The session [(k, r)] was announced and not withdrawn since. *)
Definition live (calls : list Call) (k : JID) (r : option pystr) : Prop :=
  ∃ pre c post,
    calls = pre ++ c :: post ∧ announces c k r
    ∧ ∀ c', c' ∈ post → ¬ withdraws c' k r.

(** The text of a JID, [local@domain/resource], as pyxmpp2 prints it. *)
Definition as_unicode (j : JID) : pystr :=
  match local j with Some l => l ++ lit "@" | None => [] end
  ++ domain j
  ++ match resource j with Some r => lit "/" ++ r | None => [] end.

(** The identities a log record shows. *)
Definition logged_identities (rec : LogRecord) : list pystr :=
  log_args rec ≫= λ v,
    match v with
    | VJid j => [as_unicode j]
    | VJids l => as_unicode <$> l
    | _ => []
    end.

(** The store holds the same records, empty entries apart. *)
Definition same_records : relation ChatBot := λ st st',
  ∀ k, records (presence st') k = records (presence st) k.

(** [m] takes every state to one that [R] relates to it, whether it returns
    or raises. *)
Definition preserves (R : relation ChatBot) {A : Type} (m : M A) : Prop :=
  ∀ st, R st (final (m st)).

(** A lower-case hexadecimal digit. *)
Definition is_hexdigit (c : N) : bool :=
  ((48 <=? c) && (c <=? 57) || (97 <=? c) && (c <=? 102))%N.

(** A chat message sent under the JID [me]. *)
Definition chat_from (me : JID) (m : Message.t) : Prop :=
  Message.stanza_type m = Some (lit "chat") ∧ Message.from_jid m = me
  ∧ is_Some (Message.body m).

(** ** Running the monad *)

Lemma run_bind {A B : Type} (m : M A) (f : A → M B) (st : ChatBot) :
  (m ≫= f) st
  = match m st with
    | Ok a st' => f a st'
    | Raise e st' => Raise e st'
    end.
Proof. reflexivity. Qed.

Lemma run_bind_Ok {A B : Type} (m : M A) (f : A → M B) st a st' :
  m st = Ok a st' → (m ≫= f) st = f a st'.
Proof. intros H. by rewrite run_bind, H. Qed.

Lemma run_bind_Raise {A B : Type} (m : M A) (f : A → M B) st e st' :
  m st = Raise e st' → (m ≫= f) st = Raise e st'.
Proof. intros H. by rewrite run_bind, H. Qed.

Lemma run_ret {A : Type} (a : A) (st : ChatBot) : (mret a : M A) st = Ok a st.
Proof. reflexivity. Qed.

Lemma with_presence_id st : with_presence (presence st) st = st.
Proof. by destruct st. Qed.

Lemma with_roster_id st : with_roster (roster st) st = st.
Proof. by destruct st. Qed.

(** ** The presence store *)

Lemma records_touch k p k' : records (touch k p) k' = records p k'.
Proof.
  unfold records, touch. destruct (p !! k) eqn:Hk; [done|].
  destruct (decide (k = k')) as [<-|Hne].
  - by rewrite lookup_insert_eq, Hk.
  - by rewrite lookup_insert_ne.
Qed.

Lemma touch_lookup k p k' :
  touch k p !! k' = if decide (k = k') then Some (records p k) else p !! k'.
Proof.
  unfold records, touch. destruct (p !! k) eqn:Hk; case_decide; subst;
    rewrite ?Hk, ?lookup_insert_eq, ?lookup_insert_ne; done.
Qed.

Lemma touch_known k p : is_Some (p !! k) → touch k p = p.
Proof. intros [d Hd]. unfold touch. by rewrite Hd. Qed.

Lemma records_touch_both xs p k : records (touch_both xs p) k = records p k.
Proof.
  revert p. induction xs as [|x xs IH]; intros p; [done|].
  unfold touch_both in *. simpl. rewrite IH.
  case_decide; [apply records_touch | done].
Qed.

Lemma isPresent_records p k : isPresent p k ↔ records p k ≠ ∅.
Proof.
  unfold isPresent, session. split.
  - intros (r & v & Hv) He. by rewrite He, lookup_empty in Hv.
  - intros Hne. apply map_choose in Hne as (r & v & Hv). eauto.
Qed.

Lemma defaultdict_getitem_run k st :
  defaultdict_getitem k st
  = Ok (records (presence st) k) (with_presence (touch k (presence st)) st).
Proof.
  unfold defaultdict_getitem, records, touch.
  rewrite run_bind. simpl.
  destruct (presence st !! k) eqn:Hk; simpl.
  - by rewrite run_ret, with_presence_id.
  - reflexivity.
Qed.

Lemma online_users_records r p q :
  (∀ k, records q k = records p k) → online_users r q = online_users r p.
Proof.
  intros H. unfold online_users. apply list_filter_iff. intros x.
  by rewrite H.
Qed.

Lemma online_users_cons x xs p :
  online_users (x :: xs) p
  = if decide (is_both x ∧ records p (jid x) ≠ ∅)
    then x :: online_users xs p else online_users xs p.
Proof. unfold online_users. by rewrite filter_cons. Qed.

Lemma online_filter_run xs st :
  online_filter xs st
  = Ok (online_users xs (presence st))
       (with_presence (touch_both xs (presence st)) st).
Proof.
  revert st. induction xs as [|x xs IH]; intros st.
  - simpl. by rewrite run_ret, with_presence_id.
  - simpl online_filter. rewrite run_bind, online_users_cons.
    unfold touch_both. simpl foldl. fold (is_both x).
    destruct (decide (is_both x)) as [Hb|Hb].
    + rewrite (bool_decide_eq_true_2 _ Hb).
      rewrite run_bind, defaultdict_getitem_run, run_ret, run_bind, IH.
      cbn [presence with_presence self_jid roster sent log].
      rewrite run_ret, (online_users_records xs _ _ (records_touch _ _)).
      fold (touch_both xs (touch (jid x) (presence st))).
      destruct (decide (is_both x ∧ records (presence st) (jid x) ≠ ∅))
        as [[_ Hne]|Hn].
      * by rewrite (bool_decide_eq_true_2 _ Hne).
      * rewrite bool_decide_eq_false_2; [done|]. intros Hne. by apply Hn.
    + rewrite (bool_decide_eq_false_2 _ Hb).
      rewrite run_ret, run_bind, IH, run_ret.
      by destruct (decide (is_both x ∧ records (presence st) (jid x) ≠ ∅))
        as [[Hb' _]|Hn].
Qed.

(** The whole of [get_online_users] as one equation: its result, and the
    state it leaves. *)
Lemma get_online_users_run st :
  get_online_users st
  = Ok (online_users (roster st) (presence st)) (online_state st).
Proof.
  unfold get_online_users. rewrite run_bind. simpl.
  rewrite run_bind, online_filter_run, run_bind. simpl. by rewrite run_ret.
Qed.

(** ** Frames: what a method leaves as it was *)

Section Frames.

Context (R : relation ChatBot) `{!Reflexive R} `{!Transitive R}.

Lemma preserves_ret {A : Type} (a : A) : preserves R (mret a).
Proof. intros st. simpl. reflexivity. Qed.

Lemma preserves_raise {A : Type} (e : exn) : preserves R (@raise A e).
Proof. intros st. simpl. reflexivity. Qed.

Lemma preserves_bind {A B : Type} (m : M A) (f : A → M B) :
  preserves R m → (∀ a, preserves R (f a)) → preserves R (m ≫= f).
Proof.
  intros Hm Hf st. rewrite run_bind. specialize (Hm st).
  destruct (m st) as [a st'|e st']; simpl in *; [|done].
  etrans; [exact Hm | apply Hf].
Qed.

Lemma preserves_try_except {A : Type} (m h : M A) (e : exn) :
  preserves R m → preserves R h → preserves R (try_except m e h).
Proof.
  intros Hm Hh st. unfold try_except. specialize (Hm st).
  destruct (m st) as [a st'|e' st']; simpl in *; [done|].
  case_decide; [|done]. etrans; [exact Hm | apply Hh].
Qed.

Lemma preserves_for_each {A : Type} (xs : list A) (f : A → M ()) :
  (∀ x, preserves R (f x)) → preserves R (for_each xs f).
Proof.
  intros Hf. induction xs as [|x xs IH]; simpl.
  - apply preserves_ret.
  - apply preserves_bind; [apply Hf | intros _; apply IH].
Qed.

Lemma preserves_if {A : Type} (b : bool) (m1 m2 : M A) :
  preserves R m1 → preserves R m2 → preserves R (if b then m1 else m2).
Proof. by destruct b. Qed.

End Frames.

Global Instance same_records_refl : Reflexive same_records.
Proof. by intros st k. Qed.

Global Instance same_records_trans : Transitive same_records.
Proof. intros a b c Hab Hbc k. by rewrite Hbc, Hab. Qed.

Lemma get_roster_records : preserves same_records get_roster.
Proof. by intros st k. Qed.

Lemma set_roster_records r : preserves same_records (set_roster r).
Proof. by intros st k. Qed.

Lemma logging_info_records msg args :
  preserves same_records (logging_info msg args).
Proof. by intros st k. Qed.

Lemma send_message_records receiver msg :
  preserves same_records (send_message receiver msg).
Proof. by intros st k. Qed.

Lemma get_online_users_records : preserves same_records get_online_users.
Proof.
  intros st k. rewrite get_online_users_run. simpl.
  apply records_touch_both.
Qed.

Lemma JID_of_str_records s : preserves same_records (JID_of_str s).
Proof. intros st k. unfold JID_of_str. by destruct (parse_jid s). Qed.

Lemma roster_getitem_records j : preserves same_records (roster_getitem j).
Proof.
  intros st k. unfold roster_getitem. rewrite run_bind. simpl.
  by destruct (find _ _).
Qed.

(** Goes through a method along its binds, branches and loops. *)
Ltac frame :=
  repeat first
    [ match goal with
      | |- ∀ _, _ => intro
      | |- Reflexive _ => apply _
      | |- Transitive _ => apply _
      | |- preserves _ (let _ := _ in _) => cbv zeta
      | H : ∀ x, preserves _ (?f x) |- preserves _ (?f _) => apply H
      | H : ∀ x y, preserves _ (?f x y) |- preserves _ (?f _ _) => apply H
      | |- preserves _ (if ?b then _ else _) => destruct b
      | |- preserves _ (match ?x with _ => _ end) => destruct x
      end
    | apply get_roster_records
    | apply set_roster_records
    | apply logging_info_records
    | apply send_message_records
    | apply get_online_users_records
    | apply JID_of_str_records
    | apply roster_getitem_records
    | apply preserves_ret
    | apply preserves_raise
    | apply preserves_try_except
    | apply preserves_for_each
    | apply preserves_bind ].

Lemma get_name_records arg : preserves same_records (get_name arg).
Proof. unfold get_name. frame. Qed.

Lemma update_roster_records j n : preserves same_records (update_roster j n).
Proof. unfold update_roster. frame. Qed.

Lemma send_to_all_records sender msg :
  preserves same_records (send_to_all sender msg).
Proof. unfold send_to_all. pose proof get_name_records. frame. Qed.

Lemma handle_message_records stanza :
  preserves same_records (handle_message stanza).
Proof.
  unfold handle_message, list_getitem.
  pose proof get_name_records. pose proof update_roster_records.
  pose proof send_to_all_records. frame.
Qed.

(** ** The presence handlers as equations *)

Lemma insert_touch (k : JID) (d : gmap (option pystr) PresenceInfo)
    (p : gmap JID (gmap (option pystr) PresenceInfo)) :
  <[k := d]> (touch k p) = <[k := d]> p.
Proof.
  unfold touch. destruct (p !! k); [done|]. apply insert_insert_eq.
Qed.

Lemma presence_setitem_run k r v st :
  presence_setitem k r v st
  = Ok () (with_presence
             (<[k := <[r := v]> (records (presence st) k)]> (presence st)) st).
Proof.
  unfold presence_setitem.
  rewrite run_bind, defaultdict_getitem_run, run_bind. simpl.
  unfold set_presence, with_presence. simpl. by rewrite insert_touch.
Qed.

Lemma presence_delitem_run k r st :
  presence_delitem k r st
  = match session (presence st) k r with
    | Some _ =>
        Ok () (with_presence
                 (<[k := delete r (records (presence st) k)]> (presence st)) st)
    | None => Raise KeyError (with_presence (touch k (presence st)) st)
    end.
Proof.
  unfold presence_delitem, session.
  rewrite run_bind, defaultdict_getitem_run.
  destruct (records (presence st) k !! r); [|done].
  rewrite run_bind. simpl.
  unfold set_presence, with_presence. simpl. by rewrite insert_touch.
Qed.

Lemma handle_presence_available_run stanza st :
  handle_presence_available stanza st
  = if decide (accepted stanza) then
      let j := Presence.from_jid stanza in
      Ok true
        (with_log
           (log st
            ++ [mkLog (lit "%s[%s]")
                  [VJid j; VStr (py_or (Presence.show stanza) (lit "available"))]])
           (with_presence
              (<[bare j := <[resource j := info_of stanza]>
                             (records (presence st) (bare j))]> (presence st))
              st))
    else Ok false st.
Proof.
  unfold handle_presence_available, accepted.
  destruct (decide (Presence.stanza_type stanza ∈ [Some (lit "available"); None]))
    as [Hin|Hout].
  - rewrite bool_decide_eq_false_2 by (intros Hn; by apply Hn).
    rewrite run_bind, presence_setitem_run, run_bind. reflexivity.
  - by rewrite (bool_decide_eq_true_2 _ Hout).
Qed.

Lemma handle_presence_unavailable_run stanza st :
  handle_presence_unavailable stanza st
  = let j := Presence.from_jid stanza in
    match session (presence st) (bare j) (resource j) with
    | Some _ =>
        Ok true
          (with_log (log st ++ [mkLog (lit "%s[unavailable]") [VJid j]])
             (with_presence
                (<[bare j := delete (resource j) (records (presence st) (bare j))]>
                   (presence st))
                st))
    | None => Ok true (with_presence (touch (bare j) (presence st)) st)
    end.
Proof.
  unfold handle_presence_unavailable. cbv zeta.
  rewrite run_bind. unfold try_except.
  rewrite run_bind, presence_delitem_run.
  by destruct (session (presence st) _ _).
Qed.

(** One session's record after a store or a removal. *)
Lemma session_insert_insert p b r v k r' :
  session (<[b := <[r := v]> (records p b)]> p) k r'
  = if decide (k = b ∧ r' = r) then Some v else session p k r'.
Proof.
  unfold session, records at 1.
  destruct (decide (k = b)) as [->|Hk].
  - rewrite lookup_insert_eq. simpl.
    destruct (decide (r' = r)) as [->|Hr].
    + rewrite lookup_insert_eq. by rewrite decide_True.
    + rewrite lookup_insert_ne by done. rewrite decide_False by tauto. done.
  - rewrite lookup_insert_ne by done. rewrite decide_False by tauto. done.
Qed.

Lemma session_insert_delete p b r k r' :
  session (<[b := delete r (records p b)]> p) k r'
  = if decide (k = b ∧ r' = r) then None else session p k r'.
Proof.
  unfold session, records at 1.
  destruct (decide (k = b)) as [->|Hk].
  - rewrite lookup_insert_eq. simpl.
    destruct (decide (r' = r)) as [->|Hr].
    + rewrite lookup_delete_eq. by rewrite decide_True.
    + rewrite lookup_delete_ne by done. rewrite decide_False by tauto. done.
  - rewrite lookup_insert_ne by done. rewrite decide_False by tauto. done.
Qed.

Lemma session_touch p b k r : session (touch b p) k r = session p k r.
Proof. unfold session. by rewrite records_touch. Qed.

(** ** Histories of presence events *)

Lemma live_nil k r : ¬ live [] k r.
Proof. intros (pre & c & post & Heq & _). by destruct pre. Qed.

Lemma live_snoc calls c k r :
  live (calls ++ [c]) k r
  ↔ announces c k r ∨ (live calls k r ∧ ¬ withdraws c k r).
Proof.
  split.
  - intros (pre & a & post & Heq & Ha & Hpost).
    destruct post as [|x post _] using rev_ind.
    + apply app_inj_tail in Heq as [_ <-]. by left.
    + right. rewrite app_comm_cons, app_assoc in Heq.
      apply app_inj_tail in Heq as [-> <-]. split.
      * exists pre, a, post. split_and!; [done..|].
        intros c' Hc'. apply Hpost. apply elem_of_app. by left.
      * apply Hpost. apply elem_of_app. right. by apply list_elem_of_singleton.
  - intros [Ha|[(pre & a & post & -> & Ha & Hpost) Hc]].
    + exists calls, c, []. split_and!; [done..|]. by intros c' ?%elem_of_nil.
    + exists pre, a, (post ++ [c]). split_and!; [|done|].
      * by rewrite <-app_assoc.
      * intros c' [?| ->%list_elem_of_singleton]%elem_of_app; auto.
Qed.

(** What one call does to one session's record. *)
Lemma run_call_session st c k r :
  session (presence (run_call st c)) k r
  = if decide (announces c k r) then
      match c with available s => Some (info_of s) | _ => None end
    else if decide (withdraws c k r) then None
    else session (presence st) k r.
Proof.
  destruct c as [s|u|m| |r0]; simpl run_call.
  - rewrite handle_presence_available_run. unfold announces, withdraws.
    destruct (decide (accepted s)) as [Hs|Hs]; simpl.
    + rewrite session_insert_insert.
      destruct (decide (k = bare (Presence.from_jid s)
                        ∧ r = resource (Presence.from_jid s))) as [[-> ->]|Hn].
      * by rewrite decide_True.
      * by rewrite decide_False by (intros (_ & <- & <-); by apply Hn).
    + by rewrite decide_False by tauto.
  - rewrite handle_presence_unavailable_run. unfold announces, withdraws.
    cbv zeta. rewrite decide_False by tauto.
    destruct (session (presence st) (bare (Presence.from_jid u))
                (resource (Presence.from_jid u))) eqn:Hs; simpl.
    + rewrite session_insert_delete.
      destruct (decide (k = bare (Presence.from_jid u)
                        ∧ r = resource (Presence.from_jid u))) as [[-> ->]|Hn].
      * by rewrite decide_True.
      * by rewrite decide_False by (intros (<- & <-); by apply Hn).
    + rewrite session_touch. case_decide as Hw; [|done].
      destruct Hw as [<- <-]. done.
  - simpl. unfold session. by rewrite (handle_message_records m st k).
  - simpl. unfold session. by rewrite (get_online_users_records st k).
  - done.
Qed.

Lemma run_snoc calls c st : run (calls ++ [c]) st = run_call (run calls st) c.
Proof. unfold run. by rewrite foldl_app. Qed.

(** The invariant of the store: a session has a record exactly when it is
    live in the history. *)
Lemma session_live calls st0 k r :
  presence st0 = ∅ →
  is_Some (session (presence (run calls st0)) k r) ↔ live calls k r.
Proof.
  intros H0. induction calls as [|c calls IH] using rev_ind.
  - simpl. unfold session, records. rewrite H0, lookup_empty. simpl.
    rewrite lookup_empty. split; [by intros [? ?] | by intros ?%live_nil].
  - rewrite run_snoc, run_call_session, live_snoc.
    destruct (decide (announces c k r)) as [Ha|Ha].
    + split; [by left|]. intros _. by destruct c.
    + destruct (decide (withdraws c k r)) as [Hw|Hw].
      * split; [by intros [? ?]|]. by intros [?|[_ ?]].
      * rewrite IH. split; [by right|]. by intros [?|[? _]].
Qed.

(** ** Text of a nickname request *)

Lemma lstrip_spaces pad s :
  forallb isspace pad = true → lstrip (pad ++ s) = lstrip s.
Proof.
  induction pad as [|c pad IH]; simpl; [done|].
  intros [Hc Hpad]%andb_prop. rewrite Hc. auto.
Qed.

Lemma lit_nick : lit "-nick " = [45; 110; 105; 99; 107; 32]%N.
Proof. reflexivity. Qed.

(** [split] on a request with a name: the command, and the name without the
    whitespace before it. *)
Lemma split_nick pad c new :
  forallb isspace pad = true → isspace c = false →
  split_none_1 (lit "-nick " ++ pad ++ c :: new) = [lit "-nick"; c :: new].
Proof.
  intros Hpad Hc. rewrite lit_nick. unfold split_none_1. simpl.
  rewrite lstrip_spaces by done. simpl. by rewrite Hc.
Qed.

(** [split] on a request with nothing but whitespace after the command. *)
Lemma split_nick_blank pad :
  forallb isspace pad = true →
  split_none_1 (lit "-nick " ++ pad) = [lit "-nick"].
Proof.
  intros Hpad. rewrite lit_nick. unfold split_none_1. simpl.
  rewrite <-(app_nil_r pad), lstrip_spaces by done. done.
Qed.

Lemma nick_not_ping s : lit "-nick " ++ s ≠ lit "ping".
Proof. rewrite lit_nick. intros H. vm_compute in H. discriminate H. Qed.

Lemma startswith_app p s : startswith (p ++ s) p = true.
Proof.
  induction p as [|a p IH]; simpl; [done|]. by rewrite N.eqb_refl, IH.
Qed.

(** ** Names *)

Lemma py_or_truthy o y : py_or o y = if truthy o then fmt_s o else y.
Proof. by destruct o as [[|]|]. Qed.

Lemma bare_bare j : bare (bare j) = bare j.
Proof. done. Qed.

Lemma lookup_name_run j st :
  try_except
    (x ← roster_getitem j; mret (py_or (name x) (hashjid j)))
    KeyError (mret (hashjid j)) st
  = Ok (display_name (roster st) j) st.
Proof.
  unfold try_except, display_name, roster_getitem.
  rewrite !run_bind. simpl.
  destruct (find _ (roster st)) as [x|]; simpl; [|done].
  by rewrite py_or_truthy.
Qed.

(** [get_name] on a JID: the display name of its bare form; nothing
    changes. *)
Lemma get_name_jid_run j st :
  get_name (OfJID j) st = Ok (display_name (roster st) (bare j)) st.
Proof. unfold get_name. rewrite run_bind, run_ret. apply lookup_name_run. Qed.

(** [get_name] on a string: the display name of the JID it denotes, with
    its resource when it has one. *)
Lemma get_name_str_run s st :
  get_name (OfStr s) st
  = match parse_jid s with
    | Some j => Ok (display_name (roster st) j) st
    | None => Raise JIDError st
    end.
Proof.
  unfold get_name, JID_of_str. rewrite run_bind.
  destruct (parse_jid s) as [j|]; [|done].
  rewrite run_ret. apply lookup_name_run.
Qed.

Lemma find_update_item j n r :
  ∃ x, find (λ x, bool_decide (jid x = j)) (update_item j n r) = Some x
       ∧ name x = Some n.
Proof.
  induction r as [|y r IH]; simpl.
  - rewrite bool_decide_eq_true_2 by done. eauto.
  - destruct (bool_decide (jid y = j)) eqn:Hy; simpl.
    + rewrite Hy. eauto.
    + by rewrite Hy.
Qed.

(** After the update the display name is the new one, if it is not empty. *)
Lemma display_name_update_item j c n r :
  display_name (update_item j (c :: n) r) j = c :: n.
Proof.
  unfold display_name.
  destruct (find_update_item j (c :: n) r) as (x & -> & ->). done.
Qed.

(** The update changes no entry of another identity. *)
Lemma filter_update_item (P : RosterItem → Prop) `{!∀ x, Decision (P x)} j n r :
  (∀ x, jid x = j → ¬ P x) →
  filter P (update_item j n r) = filter P r.
Proof.
  intros HP. induction r as [|y r IH]; simpl.
  - rewrite filter_cons, decide_False; [done|]. by apply HP.
  - destruct (bool_decide (jid y = j)) eqn:Hy.
    + apply bool_decide_eq_true_1 in Hy.
      rewrite !filter_cons, !decide_False; [done|by apply HP..].
    + by rewrite !filter_cons, IH.
Qed.

Lemma online_users_update_item j n r p :
  filter (λ u, jid u ≠ j) (online_users (update_item j n r) p)
  = filter (λ u, jid u ≠ j) (online_users r p).
Proof.
  unfold online_users. rewrite !list_filter_filter.
  apply filter_update_item. intros x Hx [Hne _]. done.
Qed.

(** ** The message router as equations *)

Lemma for_each_send_run us b text st :
  for_each us
    (λ u, if bool_decide (jid u ≠ b) then send_message (jid u) text else mret ())
    st
  = Ok () (with_sent (sent st ++ deliveries (self_jid st) b text us) st).
Proof.
  revert st. induction us as [|u us IH]; intros st.
  - simpl. unfold deliveries. rewrite filter_nil, app_nil_r. by destruct st.
  - simpl for_each. rewrite run_bind. unfold deliveries.
    rewrite filter_cons.
    destruct (decide (jid u ≠ b)) as [Hu|Hu].
    + rewrite (bool_decide_eq_true_2 _ Hu). unfold send_message at 1.
      rewrite IH. unfold deliveries, with_sent. simpl.
      by rewrite <-app_assoc.
    + rewrite (bool_decide_eq_false_2 _ Hu), run_ret. by rewrite IH.
Qed.

Lemma broadcast_run b text st :
  (us ← get_online_users;
   for_each us
     (λ u, if bool_decide (jid u ≠ b) then send_message (jid u) text
           else mret ())) st
  = Ok () (broadcast_state b text st).
Proof. by rewrite run_bind, get_online_users_run, for_each_send_run. Qed.

Lemma send_to_all_run sender text st :
  send_to_all sender text st
  = Ok () (broadcast_state sender
             (lit "[" ++ display_name (roster st) (bare sender) ++ lit "] " ++ text)
             st).
Proof.
  unfold send_to_all. rewrite run_bind, get_name_jid_run. apply broadcast_run.
Qed.

(** Every path of [handle_message]. *)
Lemma handle_message_run stanza st :
  handle_message stanza st
  = match Message.body stanza with
    | None => Ok true st
    | Some body =>
        let sender := Message.from_jid stanza in
        let st1 :=
          with_log
            (log st ++ [mkLog (lit "[%s] %s") [VJid (bare sender); VStr body]])
            st in
        if decide (body = lit "ping") then
          Ok true
            (with_sent (sent st ++ [chat (self_jid st) (bare sender) (lit "pong")])
               st1)
        else if startswith body (lit "-nick ") then
          match split_none_1 body !! 1%nat with
          | Some nick =>
              Ok true
                (broadcast_state (bare sender)
                   (nick_announcement
                      (display_name (roster st) (bare sender)) nick)
                   (nick_state sender body nick st))
          | None => Raise IndexError st1
          end
        else
          Ok true
            (broadcast_state (bare sender)
               (lit "[" ++ display_name (roster st) (bare sender) ++ lit "] "
                ++ body)
               st1)
    end.
Proof.
  unfold handle_message. destruct (Message.body stanza) as [body|]; [|done].
  cbv zeta. rewrite run_bind. unfold logging_info at 1.
  rewrite run_bind.
  destruct (decide (body = lit "ping")) as [Hp|Hp].
  - by rewrite (bool_decide_eq_true_2 _ Hp).
  - rewrite (bool_decide_eq_false_2 _ Hp).
    destruct (startswith body (lit "-nick ")).
    + rewrite run_bind. unfold list_getitem.
      destruct (split_none_1 body !! 1%nat) as [nick|]; [|done].
      rewrite run_ret, run_bind, get_name_jid_run.
      rewrite run_bind. unfold update_roster at 1. rewrite run_bind.
      unfold get_roster at 1, set_roster at 1.
      rewrite run_bind. unfold send_message at 1.
      by rewrite broadcast_run.
    + rewrite send_to_all_run. by rewrite bare_bare.
Qed.

(** ** The online set *)

Lemma elem_of_online_users x r p :
  x ∈ online_users r p
  ↔ x ∈ r ∧ subscription x = Some (lit "both") ∧ isPresent p (jid x).
Proof.
  unfold online_users. rewrite list_elem_of_filter, isPresent_records.
  unfold is_both. tauto.
Qed.

Lemma isPresent_live me r0 calls k :
  isPresent (presence (run calls (new_bot me r0))) k ↔ ∃ r, live calls k r.
Proof.
  unfold isPresent. split.
  - intros (r & v & Hv). exists r.
    apply (proj1 (session_live calls (new_bot me r0) k r eq_refl)).
    by exists v.
  - intros (r & Hr). exists r.
    apply (proj2 (session_live calls (new_bot me r0) k r eq_refl)) in Hr.
    destruct Hr as [v Hv]. by exists v.
Qed.

(** C1.  [get_online_users] returns, in the order of the roster, exactly the
    items whose subscription is ['both'] and whose identity has at least one
    presence record; no item of another subscription is in the result.  In
    every state reached from [__init__] an identity has a presence record
    exactly when some session of it was marked available and not marked
    unavailable since. *)
Theorem get_online_users_exactly :
  (∀ st, ∃ st',
     get_online_users st
     = Ok (filter (λ x, subscription x = Some (lit "both")
                        ∧ records (presence st) (jid x) ≠ ∅) (roster st)) st')
  ∧ (∀ st x,
       x ∈ online_users (roster st) (presence st)
       ↔ x ∈ roster st ∧ subscription x = Some (lit "both")
         ∧ isPresent (presence st) (jid x))
  ∧ (∀ st, online_users (roster st) (presence st) `sublist_of` roster st)
  ∧ (∀ me r0 calls k,
       isPresent (presence (run calls (new_bot me r0))) k
       ↔ ∃ r pre c post,
           calls = pre ++ c :: post ∧ announces c k r
           ∧ ∀ c', c' ∈ post → ¬ withdraws c' k r).
Proof.
  split_and!.
  - intros st. eexists. apply get_online_users_run.
  - intros st x. apply elem_of_online_users.
  - intros st. apply sublist_filter.
  - intros me r0 calls k. apply isPresent_live.
Qed.

(** ** Presence handlers *)

(** C10.  [handle_presence_available] takes a stanza exactly when its type is
    ['available'] or absent.  Any other stanza is declined: [False] is
    returned, nothing is raised and the state is the same.  A stanza it takes
    stores the record of show, status and priority under the sender's bare
    JID and resource, over any record that was there, and no other session
    changes. *)
Theorem handle_presence_available_iff stanza st :
  ∃ handled st',
    handle_presence_available stanza st = Ok handled st'
    ∧ (handled = true
       ↔ Presence.stanza_type stanza = Some (lit "available")
         ∨ Presence.stanza_type stanza = None)
    ∧ (handled = false → st' = st)
    ∧ (handled = true →
       let j := Presence.from_jid stanza in
       session (presence st') (bare j) (resource j)
       = Some (mkInfo (Presence.show stanza) (Presence.status stanza)
                 (Presence.priority stanza))
       ∧ ∀ k r, ¬ (k = bare j ∧ r = resource j) →
           session (presence st') k r = session (presence st) k r).
Proof.
  rewrite handle_presence_available_run.
  assert (accepted stanza
          ↔ Presence.stanza_type stanza = Some (lit "available")
            ∨ Presence.stanza_type stanza = None) as Hacc.
  { unfold accepted. rewrite !elem_of_cons, elem_of_nil. tauto. }
  destruct (decide (accepted stanza)) as [Ha|Ha].
  - eexists true, _. split; [done|]. split_and!; [tauto|done|].
    intros _. cbv zeta. simpl. split.
    + rewrite session_insert_insert. by rewrite decide_True.
    + intros k r Hn. rewrite session_insert_insert. by rewrite decide_False.
  - exists false, st. split; [done|]. split_and!; [|done..].
    split; [done|]. intros H. by apply Hacc in H.
Qed.

(** C3, as the code has it.  A [markUnavailable] of a session without a
    record returns [True] and raises nothing; no session's record changes and
    nothing but the store is touched.  The store is the same when it has an
    entry for the bare JID; when it has none, the [defaultdict] has bound the
    bare JID to an empty dict. *)
Theorem handle_presence_unavailable_absent stanza st :
  session (presence st) (bare (Presence.from_jid stanza))
    (resource (Presence.from_jid stanza)) = None →
  ∃ st',
    handle_presence_unavailable stanza st = Ok true st'
    ∧ (∀ k r, session (presence st') k r = session (presence st) k r)
    ∧ (∀ k, isPresent (presence st') k ↔ isPresent (presence st) k)
    ∧ (is_Some (presence st !! bare (Presence.from_jid stanza)) → st' = st)
    ∧ (presence st !! bare (Presence.from_jid stanza) = None →
       st' = with_presence
               (<[bare (Presence.from_jid stanza) := ∅]> (presence st)) st).
Proof.
  intros Hs. rewrite handle_presence_unavailable_run. cbv zeta. rewrite Hs.
  eexists. split; [done|]. simpl. split_and!.
  - intros k r. apply session_touch.
  - intros k. unfold isPresent. by setoid_rewrite session_touch.
  - intros Hk. by rewrite touch_known, with_presence_id.
  - intros Hk. unfold touch. by rewrite Hk.
Qed.

Lemma touch_both_lookup xs p k :
  touch_both xs p !! k
  = match p !! k with
    | Some d => Some d
    | None =>
        if decide (Exists (λ x, is_both x ∧ jid x = k) xs) then Some ∅
        else None
    end.
Proof.
  revert p. induction xs as [|x xs IH]; intros p.
  - simpl. by destruct (p !! k).
  - unfold touch_both in *. simpl. rewrite IH. clear IH.
    destruct (decide (is_both x)) as [Hb|Hb].
    + rewrite touch_lookup. destruct (decide (jid x = k)) as [<-|Hk].
      * unfold records. destruct (p !! jid x); simpl; [done|].
        rewrite decide_True; [done|]. apply Exists_cons. by left.
      * destruct (p !! k); [done|].
        apply decide_ext. rewrite Exists_cons. tauto.
    + destruct (p !! k); [done|].
      apply decide_ext. rewrite Exists_cons. tauto.
Qed.

Lemma touch_both_known xs p :
  (∀ x, x ∈ xs → is_both x → is_Some (p !! jid x)) → touch_both xs p = p.
Proof.
  intros H. apply map_eq. intros k. rewrite touch_both_lookup.
  destruct (p !! k) eqn:Hk; [done|].
  rewrite decide_False; [done|].
  intros (x & Hx & Hb & <-)%Exists_exists.
  destruct (H x Hx Hb) as [d Hd]. congruence.
Qed.

(** C4, as the code has it.  [get_online_users] leaves the roster as it was
    and changes no presence record.  In the store, every roster item of
    subscription ['both'] whose JID was no key has become a key bound to an
    empty dict, and nothing else differs; so the store is the same when every
    such JID was a key. *)
Theorem get_online_users_frame st :
  ∃ ret st',
    get_online_users st = Ok ret st'
    ∧ roster st' = roster st
    ∧ (∀ k r, session (presence st') k r = session (presence st) k r)
    ∧ (∀ k, presence st' !! k
            = match presence st !! k with
              | Some d => Some d
              | None =>
                  if decide (Exists (λ x, subscription x = Some (lit "both")
                                          ∧ jid x = k) (roster st))
                  then Some ∅ else None
              end)
    ∧ ((∀ x, x ∈ roster st → subscription x = Some (lit "both") →
             is_Some (presence st !! jid x)) →
       presence st' = presence st).
Proof.
  rewrite get_online_users_run. eexists _, _. split; [done|]. simpl.
  split_and!.
  - done.
  - intros k r. unfold session. by rewrite records_touch_both.
  - intros k. apply touch_both_lookup.
  - apply touch_both_known.
Qed.

(** C8, as the code has it.  [get_online_users] adds exactly one record to
    the log: the number of online contacts and the list of their JIDs, as
    they are in the roster. *)
Theorem get_online_users_logs st :
  ∃ ret st',
    get_online_users st = Ok ret st'
    ∧ log st'
      = log st
        ++ [mkLog (lit "%d online buddies: %r")
              [VInt (Z.of_nat (length ret)); VJids (jid <$> ret)]]
    ∧ (∀ rec, last (log st') = Some rec →
         logged_identities rec = as_unicode ∘ jid <$> ret).
Proof.
  rewrite get_online_users_run. eexists _, _. split; [done|]. simpl.
  split; [done|]. intros rec. rewrite last_snoc. intros [= <-].
  unfold logged_identities. simpl. rewrite app_nil_r. by rewrite <-list_fmap_compose.
Qed.

(** ** The message router *)

(** C2, on the code.  A body that starts with ['-nick '] and has nothing but
    whitespace after it makes [handle_message] raise [IndexError], at
    [split(None, 1)[1]]: the message is logged, nothing is sent, and the
    handler does not return. *)
Theorem handle_message_blank_nick_raises st typ sender to pad :
  forallb isspace pad = true →
  handle_message (Message.mk typ sender to (Some (lit "-nick " ++ pad))) st
  = Raise IndexError
      (with_log
         (log st
          ++ [mkLog (lit "[%s] %s")
                [VJid (bare sender); VStr (lit "-nick " ++ pad)]])
         st).
Proof.
  intros Hpad. rewrite handle_message_run.
  cbn [Message.body Message.from_jid]. cbv zeta.
  rewrite decide_False by apply nick_not_ping.
  by rewrite startswith_app, split_nick_blank.
Qed.

Lemma handle_message_nick_run st typ sender to pad c new :
  forallb isspace pad = true → isspace c = false →
  handle_message
    (Message.mk typ sender to (Some (lit "-nick " ++ pad ++ c :: new))) st
  = Ok true
      (broadcast_state (bare sender)
         (nick_announcement (display_name (roster st) (bare sender)) (c :: new))
         (nick_state sender (lit "-nick " ++ pad ++ c :: new) (c :: new) st)).
Proof.
  intros Hpad Hc. rewrite handle_message_run.
  cbn [Message.body Message.from_jid]. cbv zeta.
  rewrite decide_False by apply nick_not_ping.
  by rewrite startswith_app, split_nick.
Qed.

(** C5.  A request ['-nick <new>'] from [sender], [<new>] being what follows
    the whitespace after the command: the roster entry of the sender's bare
    JID gets the name [<new>]; the sender is sent the fixed confirmation
    ['昵称更新成功！']; and every online contact but the sender's bare JID is
    sent one message, whose body is ['<old> 的昵称已更新为 <new>。'] with
    [<old>] the sender's display name before the request: the announcement
    as it is, starting with the old name and with no ['[sender] '] put
    before it.  Nothing else is sent. *)
Theorem handle_message_nick st typ sender to pad c new :
  forallb isspace pad = true → isspace c = false →
  ∃ st' old,
    handle_message
      (Message.mk typ sender to (Some (lit "-nick " ++ pad ++ c :: new))) st
    = Ok true st'
    ∧ get_name (OfJID sender) st = Ok old st
    ∧ roster st' = update_item (bare sender) (c :: new) (roster st)
    ∧ (∃ x, find (λ x, bool_decide (jid x = bare sender)) (roster st') = Some x
            ∧ name x = Some (c :: new))
    ∧ sent st'
      = sent st
        ++ Message.mk (Some (lit "chat")) (self_jid st) sender
             (Some [0x6635; 0x79F0; 0x66F4; 0x65B0; 0x6210; 0x529F; 0xFF01]%N)
        :: ((λ u, Message.mk (Some (lit "chat")) (self_jid st) (jid u)
                    (Some (old
                           ++ [0x20; 0x7684; 0x6635; 0x79F0; 0x5DF2; 0x66F4;
                               0x65B0; 0x4E3A; 0x20]%N
                           ++ (c :: new) ++ [0x3002]%N)))
            <$> filter (λ u, jid u ≠ bare sender)
                  (online_users (roster st) (presence st)))
    ∧ filter (λ u, jid u ≠ bare sender) (online_users (roster st) (presence st))
      = filter (λ u, jid u ≠ bare sender)
          (online_users (roster st') (presence st')).
Proof.
  intros Hpad Hc. rewrite handle_message_nick_run by done.
  eexists _, _. split; [done|]. split; [apply get_name_jid_run|].
  simpl. split_and!.
  - done.
  - apply find_update_item.
  - rewrite <-app_assoc. simpl. unfold deliveries.
    by rewrite online_users_update_item.
  - rewrite (online_users_records _ (presence st) (touch_both _ _))
      by (intros k; apply records_touch_both).
    by rewrite online_users_update_item.
Qed.

(** C6.  After ['-nick <new>'] from [sender], [get_name] of the sender is
    [<new>], and a message of the sender relayed next goes out as
    ['[<new>] <text>'] to every online contact but the sender. *)
Theorem nickname_round_trip st typ sender to pad c new typ' res to' text :
  forallb isspace pad = true → isspace c = false →
  text ≠ lit "ping" → startswith text (lit "-nick ") = false →
  ∃ st',
    handle_message
      (Message.mk typ sender to (Some (lit "-nick " ++ pad ++ c :: new))) st
    = Ok true st'
    ∧ get_name (OfJID sender) st' = Ok (c :: new) st'
    ∧ ∃ st'',
        handle_message
          (Message.mk typ' (mkJID (local sender) (domain sender) res) to'
             (Some text)) st'
        = Ok true st''
        ∧ sent st''
          = sent st'
            ++ ((λ u, chat (self_jid st') (jid u)
                        (lit "[" ++ (c :: new) ++ lit "] " ++ text))
                <$> filter (λ u, jid u ≠ bare sender)
                      (online_users (roster st') (presence st'))).
Proof.
  intros Hpad Hc Hping Hnick. rewrite handle_message_nick_run by done.
  eexists. split; [done|]. split.
  - rewrite get_name_jid_run. simpl. by rewrite display_name_update_item.
  - rewrite handle_message_run. simpl Message.body. cbv iota zeta.
    rewrite decide_False by done. rewrite Hnick.
    eexists. split; [done|]. simpl.
    by rewrite display_name_update_item.
Qed.

(** C7, as the code has it.  The reply ['pong'] goes to the sender's bare
    JID.  The confirmation of a new nickname goes to the sender's JID as it
    came, resource included, and is the only message of that request sent to
    the sender: it is addressed to the bare JID exactly when the request came
    without a resource. *)
Theorem router_replies st typ sender to pad c new :
  forallb isspace pad = true → isspace c = false →
  (∃ st',
     handle_message (Message.mk typ sender to (Some (lit "ping"))) st = Ok true st'
     ∧ sent st' = sent st ++ [chat (self_jid st) (bare sender) (lit "pong")])
  ∧ (∃ st' rest,
       handle_message
         (Message.mk typ sender to (Some (lit "-nick " ++ pad ++ c :: new))) st
       = Ok true st'
       ∧ sent st' = sent st ++ chat (self_jid st) sender nick_updated :: rest
       ∧ (∀ m, m ∈ rest → Message.to_jid m ≠ bare sender
                          ∧ Message.body m ≠ Some nick_updated)
       ∧ (sender = bare sender ↔ resource sender = None)).
Proof.
  intros Hpad Hc. split.
  - rewrite handle_message_run. simpl. eexists. split; done.
  - rewrite handle_message_nick_run by done.
    eexists _, _. split; [done|]. simpl. split_and!.
    + rewrite <-app_assoc. simpl. done.
    + intros m (u & -> & Hu)%list_elem_of_fmap.
      apply list_elem_of_filter in Hu as [Hu _]. simpl. split; [done|].
      intros [= H]. apply (f_equal length) in H.
      unfold nick_announcement, nick_updated in H.
      rewrite !length_app in H. simpl in H. lia.
    + destruct sender as [l d r]. unfold bare. simpl.
      split; [by intros [= ->] | by intros ->].
Qed.

(** ** Display names *)

(** C9, as the code has it.  On a JID, with or without a resource,
    [get_name] never fails and changes nothing: it looks the bare JID up and
    returns the stored name when there is one that is not empty, and the
    pseudonym otherwise, an identity without an entry being treated as one
    without a name.  On a string it does the same for the JID that
    [JID(text)] makes of the string, whatever the library's constructor is,
    when that JID has no resource; and it raises [JIDError] when the
    constructor does. *)
Theorem get_name_total :
  (∀ st j, get_name (OfJID j) st = Ok (display_name (roster st) (bare j)) st)
  ∧ (∀ st s j, parse_jid s = Some j → resource j = None →
       get_name (OfStr s) st = Ok (display_name (roster st) (bare j)) st)
  ∧ (∀ st s, parse_jid s = None → get_name (OfStr s) st = Raise JIDError st)
  ∧ (∀ r j x, find (λ x, bool_decide (jid x = j)) r = Some x →
       display_name r j
       = match name x with
         | Some (c :: n) => c :: n
         | _ => hashjid j
         end)
  ∧ (∀ r j, find (λ x, bool_decide (jid x = j)) r = None →
       display_name r j = hashjid j).
Proof.
  split_and!.
  - intros st j. apply get_name_jid_run.
  - intros st s j Hs Hr. rewrite get_name_str_run, Hs.
    destruct j as [l d r]. simpl in Hr. by subst r.
  - intros st s Hs. by rewrite get_name_str_run, Hs.
  - intros r j x Hx. unfold display_name. rewrite Hx.
    by destruct (name x) as [[|]|].
  - intros r j Hx. unfold display_name. by rewrite Hx.
Qed.

End Bot.

(** ** The model on concrete inputs *)

Example md5_empty :
  MD5.hexdigest [] = lit "d41d8cd98f00b204e9800998ecf8427e".
Proof. vm_compute. reflexivity. Qed.

Example md5_abc :
  MD5.hexdigest (encode (lit "abc")) = lit "900150983cd24fb0d6963f7d28e17f72".
Proof. vm_compute. reflexivity. Qed.

Example md5_56_bytes :
  MD5.hexdigest (encode (replicate 56 97%N))
  = lit "3b0c8ac703f828b04c6c197006d17218".
Proof. vm_compute. reflexivity. Qed.

Example md5_two_blocks :
  MD5.hexdigest (encode (replicate 70 97%N))
  = lit "0f5c6c4e740bfcc08c3c26ccb2673d46".
Proof. vm_compute. reflexivity. Qed.

Example md5_utf8 :
  MD5.hexdigest
    (encode [0x6635; 0x2F; 0xE9; 0x2E; 0x6F; 0x72; 0x67]%N ++ [1; 255])
  = lit "08173eeaaa28be053e7debeed1f86bdf".
Proof. vm_compute. reflexivity. Qed.

Example split_examples :
  split_none_1 (lit "-nick ") = [lit "-nick"]
  ∧ split_none_1 (lit "-nick   Bob  x ") = [lit "-nick"; lit "Bob  x "]
  ∧ split_none_1 (lit "-nick " ++ [0x3000%N]) = [lit "-nick"]
  ∧ split_none_1 (lit "  ") = [].
Proof. vm_compute. done. Qed.

Example example_state_reached :
  run example_salt no_text
    [available (here alice_phone); available (here bob_pc);
     available (here carol)]
    (new_bot bot_jid example_roster)
  = example_state.
Proof. vm_compute. reflexivity. Qed.

Example hashjid_alice : hashjid example_salt alice_phone = lit "alice@f2f338".
Proof. vm_compute. reflexivity. Qed.

Example online_example :
  jid <$> online_users (roster example_state) (presence example_state)
  = [alice; bob].
Proof. vm_compute. reflexivity. Qed.

(** "ping" from Alice: Alice alone gets "pong". *)
Example ping_example :
  sent (final (handle_message example_salt no_text (says alice_phone "ping") example_state))
  = [chat bot_jid alice (lit "pong")].
Proof. vm_compute. reflexivity. Qed.

(** "hello" from Alice goes to Bob, under her name; Carol is not of
    subscription ['both']. *)
Example hello_example :
  sent (final (handle_message example_salt no_text (says alice_phone "hello") example_state))
  = [chat bot_jid bob (lit "[Alice] hello")].
Proof. vm_compute. reflexivity. Qed.

(** Once Bob is gone, "hello" from Alice goes to nobody. *)
Example hello_alone_example :
  sent (final (handle_message example_salt no_text (says alice_phone "hello")
                 (run example_salt no_text [unavailable (gone bob_pc)] example_state)))
  = [].
Proof. vm_compute. reflexivity. Qed.

(** ** Witnesses and counterexamples *)

(** The failing input of C2: the body ['-nick ']. *)
Lemma handle_message_blank_nick_raises_witness :
  forallb isspace [] = true
  ∧ handle_message example_salt no_text (says alice_phone "-nick ") example_state
    = Raise IndexError
        (with_log
           (log example_state
            ++ [mkLog (lit "[%s] %s") [VJid alice; VStr (lit "-nick ")]])
           example_state).
Proof.
  split; [reflexivity|].
  exact (handle_message_blank_nick_raises example_salt no_text example_state
           (Some (lit "chat")) alice_phone bot_jid [] eq_refl).
Defined.

(** C3 as stated fails: an unavailability stanza from an identity the store
    has never seen leaves a new key in the store. *)
Lemma handle_presence_unavailable_changes_store :
  presence (new_bot bot_jid example_roster) !! alice = None
  ∧ (∃ st',
       handle_presence_unavailable (gone alice_phone)
         (new_bot bot_jid example_roster) = Ok true st'
       ∧ presence st' !! alice = Some ∅
       ∧ presence st' ≠ presence (new_bot bot_jid example_roster)).
Proof.
  split; [reflexivity|]. eexists. split; [reflexivity|]. split.
  - vm_compute. reflexivity.
  - intros H. apply (f_equal (λ p, p !! alice)) in H. vm_compute in H.
    discriminate H.
Qed.

(** C3 on the first unavailability stanza a new bot gets. *)
Lemma handle_presence_unavailable_absent_witness :
  session (presence (new_bot bot_jid example_roster))
    (bare (Presence.from_jid (gone alice_phone)))
    (resource (Presence.from_jid (gone alice_phone))) = None
  ∧ ∃ st',
      handle_presence_unavailable (gone alice_phone)
        (new_bot bot_jid example_roster) = Ok true st'
      ∧ ∀ k, isPresent (presence st') k
             ↔ isPresent (presence (new_bot bot_jid example_roster)) k.
Proof.
  split; [reflexivity|].
  destruct (handle_presence_unavailable_absent (gone alice_phone)
              (new_bot bot_jid example_roster) eq_refl)
    as (st' & Hrun & _ & Hpresent & _).
  exists st'. split; [exact Hrun | exact Hpresent].
Defined.

(** C4 as stated fails: asking for the online set before anybody is present
    leaves a key in the store for every contact of subscription ['both']. *)
Lemma get_online_users_changes_store :
  presence (new_bot bot_jid example_roster) !! alice = None
  ∧ (∃ st',
       get_online_users (new_bot bot_jid example_roster) = Ok [] st'
       ∧ presence st' !! alice = Some ∅
       ∧ presence st' ≠ presence (new_bot bot_jid example_roster)).
Proof.
  split; [reflexivity|]. eexists. split; [vm_compute; reflexivity|]. split.
  - vm_compute. reflexivity.
  - intros H. apply (f_equal (λ p, p !! alice)) in H. vm_compute in H.
    discriminate H.
Qed.

(** C5 on ['-nick Bob'] from Alice's phone, Alice and Bob being online:
    the phone gets ['昵称更新成功！'] and Bob gets
    ['Alice 的昵称已更新为 Bob。']. *)
Lemma handle_message_nick_witness :
  forallb isspace [] = true ∧ isspace 66 = false
  ∧ ∃ st',
      handle_message example_salt no_text (says alice_phone "-nick Bob")
        example_state
      = Ok true st'
      ∧ sent st'
        = [Message.mk (Some (lit "chat")) bot_jid alice_phone
             (Some [0x6635; 0x79F0; 0x66F4; 0x65B0; 0x6210; 0x529F; 0xFF01]%N);
           Message.mk (Some (lit "chat")) bot_jid bob
             (Some (lit "Alice"
                    ++ [0x20; 0x7684; 0x6635; 0x79F0; 0x5DF2; 0x66F4; 0x65B0;
                        0x4E3A; 0x20]%N
                    ++ lit "Bob" ++ [0x3002]%N))].
Proof.
  split; [reflexivity|]. split; [reflexivity|].
  destruct (handle_message_nick example_salt no_text example_state
              (Some (lit "chat")) alice_phone bot_jid [] 66%N (lit "ob")
              eq_refl eq_refl)
    as (st' & old & Hrun & Hold & _ & _ & Hsent & _).
  exists st'. split; [exact Hrun|]. rewrite Hsent.
  vm_compute in Hold. injection Hold as <-. vm_compute. reflexivity.
Defined.

(** C6 on ['-nick Bob'] from Alice's phone, followed by ['hello'] from
    Alice. *)
Lemma nickname_round_trip_witness :
  forallb isspace [] = true ∧ isspace 66 = false
  ∧ lit "hello" ≠ lit "ping" ∧ startswith (lit "hello") (lit "-nick ") = false
  ∧ ∃ st',
      handle_message example_salt no_text (says alice_phone "-nick Bob") example_state
      = Ok true st'
      ∧ get_name example_salt no_text (OfJID alice_phone) st' = Ok (lit "Bob") st'
      ∧ ∃ st'',
          handle_message example_salt no_text (says alice "hello") st' = Ok true st''
          ∧ sent st'' = sent st' ++ [chat bot_jid bob (lit "[Bob] hello")].
Proof.
  assert (lit "hello" ≠ lit "ping") as Hne by (intros H; discriminate H).
  split; [reflexivity|]. split; [reflexivity|]. split; [exact Hne|].
  split; [reflexivity|].
  destruct (nickname_round_trip example_salt no_text example_state (Some (lit "chat"))
              alice_phone bot_jid [] 66%N (lit "ob") (Some (lit "chat")) None
              bot_jid (lit "hello") eq_refl eq_refl Hne eq_refl)
    as (st' & Hrun & Hname & st'' & Hrun' & Hsent).
  exists st'. split; [exact Hrun|]. split; [exact Hname|].
  exists st''. split; [exact Hrun'|]. rewrite Hsent. f_equal.
  pose proof Hrun as Hst. vm_compute in Hst. injection Hst as <-.
  vm_compute. reflexivity.
Defined.

(** C7 as stated fails: the confirmation of a nickname requested from the
    session [alice/phone] is addressed to that session, not to the bare
    JID. *)
Lemma nick_confirmation_to_full_jid :
  ∃ st' m,
    handle_message example_salt no_text (says alice_phone "-nick Bob") example_state
    = Ok true st'
    ∧ sent st' !! 0%nat = Some m
    ∧ Message.body m = Some nick_updated
    ∧ Message.to_jid m = alice_phone
    ∧ Message.to_jid m ≠ bare (Message.from_jid (says alice_phone "-nick Bob")).
Proof.
  eexists _, _. split.
  - exact (handle_message_nick_run example_salt no_text example_state _ alice_phone
             bot_jid [] 66%N (lit "ob") eq_refl eq_refl).
  - split; [vm_compute; reflexivity|]. split; [reflexivity|].
    split; [reflexivity|]. intros H. discriminate H.
Qed.

(** C7 on ['ping'] and on ['-nick Bob'] from Alice's phone. *)
Lemma router_replies_witness :
  forallb isspace [] = true ∧ isspace 66 = false
  ∧ (∃ st',
       handle_message example_salt no_text (says alice_phone "ping") example_state
       = Ok true st'
       ∧ sent st' = sent example_state ++ [chat bot_jid alice (lit "pong")])
  ∧ (∃ st' rest,
       handle_message example_salt no_text (says alice_phone "-nick Bob") example_state
       = Ok true st'
       ∧ sent st' = sent example_state ++ chat bot_jid alice_phone nick_updated :: rest).
Proof.
  split; [reflexivity|]. split; [reflexivity|].
  destruct (router_replies example_salt no_text example_state (Some (lit "chat"))
              alice_phone bot_jid [] 66%N (lit "ob") eq_refl eq_refl)
    as [(st1 & Hping & Hpong) (st2 & rest & Hnick & Hsent & _)].
  split.
  - exists st1. split; [exact Hping | exact Hpong].
  - exists st2, rest. split; [exact Hnick | exact Hsent].
Defined.

(** C8 as stated fails: the record lists the contacts' JIDs with their
    domains, not the pseudonyms [hashjid] makes of them. *)
Lemma get_online_users_logs_real_jids :
  ∃ ret st' rec,
    get_online_users example_state = Ok ret st'
    ∧ last (log st') = Some rec
    ∧ log_args rec = [VInt 2; VJids [alice; bob]]
    ∧ logged_identities rec = [lit "alice@example.org"; lit "bob@example.org"]
    ∧ hashjid example_salt ∘ jid <$> ret = [lit "alice@f2f338"; lit "bob@46bd08"]
    ∧ logged_identities rec ≠ (hashjid example_salt ∘ jid <$> ret).
Proof.
  eexists _, _, _. split; [rewrite get_online_users_run; reflexivity|].
  split; [vm_compute; reflexivity|]. split; [vm_compute; reflexivity|].
  split; [vm_compute; reflexivity|]. split; [vm_compute; reflexivity|].
  intros H. vm_compute in H. discriminate H.
Qed.

(** C9 as stated fails on strings.  Whatever else [JID(text)] does: when it
    refuses the empty text, as pyxmpp2 does for want of a domain, [get_name]
    of the empty text raises [JIDError]; and when it reads
    ['alice@example.org/phone'] as the JID of Alice's phone, [get_name] of
    that text looks the JID up with its resource, finds no entry and returns
    the pseudonym, although the roster names the bare JID ['Alice'], which
    is what [get_name] of the JID itself returns. *)
Lemma get_name_str_not_normalised :
  (∀ JID_text : list N → option JID,
     JID_text (lit "") = None →
     get_name example_salt JID_text (OfStr (lit "")) example_state
     = Raise JIDError example_state)
  ∧ (∀ JID_text : list N → option JID,
       JID_text (lit "alice@example.org/phone") = Some alice_phone →
       get_name example_salt JID_text (OfStr (lit "alice@example.org/phone"))
         example_state
       = Ok (lit "alice@f2f338") example_state
       ∧ get_name example_salt JID_text (OfJID alice_phone) example_state
         = Ok (lit "Alice") example_state
       ∧ display_name example_salt (roster example_state) (bare alice_phone)
         = lit "Alice").
Proof.
  split.
  - intros JID_text Hno. by rewrite get_name_str_run, Hno.
  - intros JID_text Hphone. rewrite get_name_str_run, Hphone, get_name_jid_run.
    vm_compute. done.
Qed.

(** * Further properties of the code *)

(** ** Pseudonyms *)

Lemma le_bytes_length n x : length (MD5.le_bytes n x) = n.
Proof. revert x. induction n as [|n IH]; intros x; simpl; [done|]. by rewrite IH. Qed.

Lemma le_bytes_range n x : Forall (λ b, 0 ≤ b < 256) (MD5.le_bytes n x).
Proof.
  revert x. induction n as [|n IH]; intros x; simpl; constructor; [|done].
  apply Z.mod_pos_bound. lia.
Qed.

Lemma digest_length msg : length (MD5.digest msg) = 16%nat.
Proof.
  unfold MD5.digest.
  destruct (MD5.blocks _ _ _) as [[[a b] c] d].
  by rewrite !length_app, !le_bytes_length.
Qed.

Lemma digest_range msg : Forall (λ b, 0 ≤ b < 256) (MD5.digest msg).
Proof.
  unfold MD5.digest.
  destruct (MD5.blocks _ _ _) as [[[a b] c] d].
  rewrite !Forall_app. split_and!; apply le_bytes_range.
Qed.

Lemma hexchar_hexdigit x : 0 ≤ x < 16 → is_hexdigit (MD5.hexchar x) = true.
Proof.
  intros Hx.
  assert (x = 0 ∨ x = 1 ∨ x = 2 ∨ x = 3 ∨ x = 4 ∨ x = 5 ∨ x = 6 ∨ x = 7
          ∨ x = 8 ∨ x = 9 ∨ x = 10 ∨ x = 11 ∨ x = 12 ∨ x = 13 ∨ x = 14
          ∨ x = 15) as H by lia.
  repeat (destruct H as [->|H]; [reflexivity|]). by subst x.
Qed.

Lemma hexdigest_length msg : length (MD5.hexdigest msg) = 32%nat.
Proof.
  unfold MD5.hexdigest. pose proof (digest_length msg) as Hlen.
  assert (∀ l : list Z,
            length (l ≫= λ b, [MD5.hexchar (b / 16); MD5.hexchar (b mod 16)])
            = (2 * length l)%nat) as Hbind.
  { induction l as [|b l IH]; [done|]. csimpl. rewrite IH. lia. }
  rewrite Hbind, Hlen. done.
Qed.

Lemma hexdigest_hexdigits msg :
  Forall (λ c, is_hexdigit c = true) (MD5.hexdigest msg).
Proof.
  unfold MD5.hexdigest. apply Forall_bind.
  eapply Forall_impl; [apply digest_range|]. intros b Hb. simpl in *.
  assert (0 ≤ b / 16 < 16) as Hhi.
  { split; [apply Z.div_pos; lia | apply Z.div_lt_upper_bound; lia]. }
  assert (0 ≤ b mod 16 < 16) as Hlo by (apply Z.mod_pos_bound; lia).
  apply Forall_cons. split; [by apply hexchar_hexdigit|].
  apply Forall_cons. split; [by apply hexchar_hexdigit|]. apply Forall_nil_2.
Qed.

(** X1.  Whatever the salt and the JID, the pseudonym is the local part (the
    text [None] for a JID without one), an [@], and exactly six lower-case
    hexadecimal digits; the resource has no part in it. *)
Theorem hashjid_format salt j :
  ∃ h,
    hashjid salt j = fmt_s (local j) ++ lit "@" ++ h
    ∧ length h = 6%nat
    ∧ Forall (λ c, is_hexdigit c = true) h
    ∧ ∀ res, hashjid salt (mkJID (local j) (domain j) res) = hashjid salt j.
Proof.
  unfold hashjid. eexists. split; [reflexivity|]. split_and!.
  - rewrite length_take_le; [done|]. rewrite hexdigest_length. lia.
  - apply Forall_take, hexdigest_hexdigits.
  - done.
Qed.

Section Further.

Variable salt : list Z.
Variable parse_jid : pystr → option JID.

(** ** Names, again *)

Lemma hashjid_nonempty j : hashjid salt j ≠ [].
Proof.
  unfold hashjid. intros H. apply (f_equal length) in H.
  rewrite !length_app in H. simpl in H. lia.
Qed.

Lemma display_name_nonempty r j : display_name salt r j ≠ [].
Proof.
  unfold display_name. destruct (find _ r) as [x|]; [|apply hashjid_nonempty].
  destruct (name x) as [[|c n]|]; simpl; try apply hashjid_nonempty. done.
Qed.

(** X2.  On a JID [get_name] returns a name that is never empty, changes
    nothing, and gives the same name for every session of an identity: the
    resource of the JID does not matter. *)
Theorem get_name_nonempty st j :
  ∃ n,
    get_name salt parse_jid (OfJID j) st = Ok n st
    ∧ n ≠ []
    ∧ ∀ res, get_name salt parse_jid (OfJID (mkJID (local j) (domain j) res)) st = Ok n st.
Proof.
  exists (display_name salt (roster st) (bare j)). split_and!.
  - apply get_name_jid_run.
  - apply display_name_nonempty.
  - intros res. by rewrite get_name_jid_run.
Qed.

(** ** The nickname that reaches the roster *)

Lemma startswith_elim s p : startswith s p = true → ∃ t, s = p ++ t.
Proof.
  revert s. induction p as [|a p IH]; intros s; simpl.
  - intros _. by exists s.
  - destruct s as [|b s]; [done|].
    intros [Hab Hs]%andb_prop. apply N.eqb_eq in Hab as ->.
    destruct (IH s Hs) as [t ->]. by exists t.
Qed.

(** A text is whitespace only, or has a first character that is not. *)
Lemma blank_or_word t :
  forallb isspace t = true
  ∨ ∃ pad c new, t = pad ++ c :: new ∧ forallb isspace pad = true
                 ∧ isspace c = false.
Proof.
  induction t as [|a t IH]; [by left|].
  destruct (isspace a) eqn:Ha.
  - destruct IH as [Hb|(pad & c & new & -> & Hpad & Hc)].
    + left. simpl. by rewrite Ha.
    + right. exists (a :: pad), c, new. simpl. by rewrite Ha.
  - right. by exists [], a, t.
Qed.

(** What [split(None, 1)[1]] of a ['-nick '] body is, when there is one. *)
Lemma split_nick_inv body nick :
  startswith body (lit "-nick ") = true →
  split_none_1 body !! 1%nat = Some nick →
  ∃ pad c new,
    body = lit "-nick " ++ pad ++ c :: new ∧ forallb isspace pad = true
    ∧ isspace c = false ∧ nick = c :: new.
Proof.
  intros [t ->]%startswith_elim Hn.
  destruct (blank_or_word t) as [Hb|(pad & c & new & -> & Hpad & Hc)].
  - by rewrite split_nick_blank in Hn.
  - rewrite split_nick in Hn by done. injection Hn as <-.
    by exists pad, c, new.
Qed.

(** X3.  The roster is never given a blank nickname.  Whenever
    [handle_message] changes the roster, the body is ['-nick '], a run of
    whitespace and a text that starts with a character that is no
    whitespace; the name written is that text, whole, what follows its first
    word and the whitespace at its end included; and it goes to the entry of
    the sender's bare JID. *)
Theorem nickname_never_blank stanza st :
  ∃ o,
    handle_message salt parse_jid stanza st = o
    ∧ (roster (final o) = roster st
       ∨ ∃ pad c new,
           Message.body stanza = Some (lit "-nick " ++ pad ++ c :: new)
           ∧ forallb isspace pad = true ∧ isspace c = false
           ∧ roster (final o)
             = update_item (bare (Message.from_jid stanza)) (c :: new)
                 (roster st)).
Proof.
  eexists. split; [reflexivity|]. rewrite handle_message_run.
  destruct (Message.body stanza) as [body|]; [|by left].
  cbv zeta. case_decide; [by left|].
  destruct (startswith body (lit "-nick ")) eqn:Hs; [|by left].
  destruct (split_none_1 body !! 1%nat) as [nick|] eqn:Hn; [|by left].
  destruct (split_nick_inv body nick Hs Hn)
    as (pad & c & new & -> & Hpad & Hc & ->).
  right. by exists pad, c, new.
Qed.

(** ** Relaying *)

(** X4.  A body that is not ['ping'] and does not start with ['-nick '], the
    empty text and a ['-nick'] without a space after it included, is relayed:
    every online contact but the sender's bare JID gets
    ['[<name of the sender>] <body>'], nothing else is sent, the roster stays
    as it was and [True] is returned. *)
Theorem handle_message_relays st typ sender to body :
  body ≠ lit "ping" → startswith body (lit "-nick ") = false →
  ∃ st',
    handle_message salt parse_jid (Message.mk typ sender to (Some body)) st = Ok true st'
    ∧ sent st'
      = sent st
        ++ ((λ u, chat (self_jid st) (jid u)
                    (lit "[" ++ display_name salt (roster st) (bare sender)
                     ++ lit "] " ++ body))
            <$> filter (λ u, jid u ≠ bare sender)
                  (online_users (roster st) (presence st)))
    ∧ roster st' = roster st
    ∧ self_jid st' = self_jid st.
Proof.
  intros Hp Hn. rewrite handle_message_run.
  cbn [Message.body Message.from_jid]. cbv zeta.
  rewrite decide_False by done. rewrite Hn.
  eexists. split; [done|]. by split_and!.
Qed.

(** X5.  [send_to_all] never raises.  A message is among those it sends
    exactly when it is the text, under the sender's name, addressed to a
    roster item of subscription ['both'] that has a presence record and
    whose JID is not the sender's; so nothing is sent when nobody but the
    sender is online. *)
Theorem send_to_all_recipients st sender text :
  ∃ st' new,
    send_to_all salt parse_jid sender text st = Ok () st'
    ∧ sent st' = sent st ++ new
    ∧ (∀ m, m ∈ new
            ↔ ∃ u, u ∈ roster st ∧ subscription u = Some (lit "both")
                   ∧ isPresent (presence st) (jid u) ∧ jid u ≠ sender
                   ∧ m = chat (self_jid st) (jid u)
                           (lit "[" ++ display_name salt (roster st) (bare sender)
                            ++ lit "] " ++ text))
    ∧ ((∀ u, u ∈ online_users (roster st) (presence st) → jid u = sender) →
       new = []).
Proof.
  rewrite send_to_all_run. eexists _, _. split; [done|]. simpl.
  split; [done|]. split.
  - intros m. unfold deliveries. rewrite list_elem_of_fmap. split.
    + intros (u & -> & [Hne Hu%elem_of_online_users]%list_elem_of_filter).
      exists u. tauto.
    + intros (u & Hu & Hb & Hp & Hne & ->). exists u. split; [done|].
      apply list_elem_of_filter. split; [done|].
      apply elem_of_online_users. tauto.
  - intros Hall. unfold deliveries.
    destruct (filter _ _) as [|u us] eqn:Hf; [done|].
    assert (u ∈ filter (λ u, jid u ≠ sender)
                  (online_users (roster st) (presence st))) as Hu
      by (rewrite Hf; apply list_elem_of_here).
    apply list_elem_of_filter in Hu as [Hne Hu]. by apply Hall in Hu.
Qed.

(** ** Sessions coming and going *)

(** X6.  The last availability stanza of a session wins: after two stanzas
    of one session the store is the one the second stanza alone would have
    left, so repeating a stanza changes neither the store nor the online
    set. *)
Theorem handle_presence_available_overwrites st s1 s2 :
  accepted s1 → accepted s2 → Presence.from_jid s1 = Presence.from_jid s2 →
  presence (final (handle_presence_available s2
                     (final (handle_presence_available s1 st))))
  = presence (final (handle_presence_available s2 st))
  ∧ ∀ r, online_users r
           (presence (final (handle_presence_available s1
                               (final (handle_presence_available s1 st)))))
         = online_users r (presence (final (handle_presence_available s1 st))).
Proof.
  intros H1 H2 Hj.
  assert (∀ s s', accepted s → accepted s' →
            Presence.from_jid s = Presence.from_jid s' →
            presence (final (handle_presence_available s'
                               (final (handle_presence_available s st))))
            = presence (final (handle_presence_available s' st))) as Hlast.
  { intros s s' Hs Hs' Heq. rewrite !handle_presence_available_run.
    rewrite !decide_True by done. cbv zeta. simpl. rewrite Heq.
    unfold records at 1. rewrite lookup_insert_eq. simpl.
    by rewrite !insert_insert_eq. }
  split; [by apply Hlast|]. intros r. by rewrite Hlast.
Qed.

(** X7.  A session that comes and goes leaves no trace among the records: if
    it had no record, then after its availability stanza and its
    unavailability stanza every session has the record it had, and the
    store is the one a mere look at the bare JID would have left. *)
Theorem available_then_unavailable st s u :
  accepted s → Presence.from_jid u = Presence.from_jid s →
  session (presence st) (bare (Presence.from_jid s))
    (resource (Presence.from_jid s)) = None →
  ∃ st1 st2,
    handle_presence_available s st = Ok true st1
    ∧ handle_presence_unavailable u st1 = Ok true st2
    ∧ presence st2 = touch (bare (Presence.from_jid s)) (presence st)
    ∧ (∀ k r, session (presence st2) k r = session (presence st) k r)
    ∧ ∀ r, online_users r (presence st2) = online_users r (presence st).
Proof.
  intros Hs Hu Hnone.
  rewrite handle_presence_available_run, decide_True by done. cbv zeta.
  eexists _, _. split; [done|].
  rewrite handle_presence_unavailable_run. cbv zeta. rewrite Hu. simpl.
  rewrite session_insert_insert, decide_True by done.
  split; [done|]. simpl.
  assert (<[bare (Presence.from_jid s) :=
              delete (resource (Presence.from_jid s))
                (records
                   (<[bare (Presence.from_jid s) :=
                        <[resource (Presence.from_jid s) := info_of s]>
                          (records (presence st) (bare (Presence.from_jid s)))]>
                      (presence st))
                   (bare (Presence.from_jid s)))]>
            (<[bare (Presence.from_jid s) :=
                 <[resource (Presence.from_jid s) := info_of s]>
                   (records (presence st) (bare (Presence.from_jid s)))]>
               (presence st))
          = touch (bare (Presence.from_jid s)) (presence st)) as Heq.
  { unfold records at 1. rewrite lookup_insert_eq. simpl.
    rewrite delete_insert_id by exact Hnone. rewrite insert_insert_eq.
    unfold touch, records.
    destruct (presence st !! bare (Presence.from_jid s)) eqn:Hk; simpl; [|done].
    by apply insert_id. }
  rewrite Heq. split_and!; [done| |].
  - intros k r. apply session_touch.
  - intros r. apply online_users_records. intros k. apply records_touch.
Qed.

(** X8.  An unavailability stanza of a session that has a record returns
    [True], removes that record and no other, and logs one line; the
    identity is still present afterwards exactly when another of its
    sessions has a record. *)
Theorem handle_presence_unavailable_present st u v :
  session (presence st) (bare (Presence.from_jid u))
    (resource (Presence.from_jid u)) = Some v →
  ∃ st',
    handle_presence_unavailable u st = Ok true st'
    ∧ session (presence st') (bare (Presence.from_jid u))
        (resource (Presence.from_jid u)) = None
    ∧ (∀ k r, ¬ (k = bare (Presence.from_jid u)
                 ∧ r = resource (Presence.from_jid u)) →
         session (presence st') k r = session (presence st) k r)
    ∧ log st'
      = log st ++ [mkLog (lit "%s[unavailable]") [VJid (Presence.from_jid u)]]
    ∧ (isPresent (presence st') (bare (Presence.from_jid u))
       ↔ ∃ r w, r ≠ resource (Presence.from_jid u)
                ∧ session (presence st) (bare (Presence.from_jid u)) r = Some w).
Proof.
  intros Hv. rewrite handle_presence_unavailable_run. cbv zeta. rewrite Hv.
  eexists. split; [done|]. simpl. split_and!.
  - rewrite session_insert_delete. by rewrite decide_True.
  - intros k r Hn. rewrite session_insert_delete. by rewrite decide_False.
  - done.
  - unfold isPresent. split.
    + intros (r & w & Hw). rewrite session_insert_delete in Hw.
      case_decide as Hd; [done|]. exists r, w. split; [|done].
      intros ->. by apply Hd.
    + intros (r & w & Hr & Hw). exists r, w.
      rewrite session_insert_delete. rewrite decide_False; [done|].
      by intros [_ ?].
Qed.

(** ** What every run keeps *)

Lemma deliveries_chat_from me b text us :
  Forall (chat_from me) (deliveries me b text us).
Proof.
  unfold deliveries. apply Forall_fmap, Forall_forall. intros u _.
  unfold chat_from. simpl. split_and!; [done..|]. by eexists.
Qed.

(** One call keeps the bot's JID, adds chat messages of the bot to what was
    sent, and adds lines to the log. *)
Lemma run_call_grows st c :
  self_jid (run_call salt parse_jid st c) = self_jid st
  ∧ ∃ new lines,
      sent (run_call salt parse_jid st c) = sent st ++ new
      ∧ Forall (chat_from (self_jid st)) new
      ∧ log (run_call salt parse_jid st c) = log st ++ lines.
Proof.
  destruct c as [s|u|m| |r0]; simpl run_call.
  - rewrite handle_presence_available_run. case_decide; simpl.
    + split; [done|]. eexists [], _. by rewrite app_nil_r.
    + split; [done|]. eexists [], []. by rewrite !app_nil_r.
  - rewrite handle_presence_unavailable_run. cbv zeta.
    destruct (session _ _ _); simpl.
    + split; [done|]. eexists [], _. by rewrite app_nil_r.
    + split; [done|]. eexists [], []. by rewrite !app_nil_r.
  - rewrite handle_message_run.
    destruct (Message.body m) as [body|].
    2:{ simpl. split; [done|]. eexists [], []. by rewrite !app_nil_r. }
    cbv zeta. case_decide.
    { simpl. split; [done|]. eexists [_], [_]. split_and!; [done| |done].
      apply Forall_singleton. unfold chat_from. simpl.
      split_and!; [done..|]. by eexists. }
    destruct (startswith body (lit "-nick ")).
    + destruct (split_none_1 body !! 1%nat) as [nick|]; simpl.
      * split; [done|]. eexists (_ :: _), [_; _].
        rewrite <-!app_assoc. split_and!; [done| |done].
        apply Forall_cons. split; [|apply deliveries_chat_from].
        unfold chat_from. simpl. split_and!; [done..|]. by eexists.
      * split; [done|]. eexists [], [_]. by rewrite app_nil_r.
    + simpl. split; [done|]. eexists _, [_; _].
      rewrite <-!app_assoc. split_and!; [done| |done].
      apply deliveries_chat_from.
  - rewrite get_online_users_run. simpl. split; [done|].
    eexists [], [_]. by rewrite app_nil_r.
  - simpl. split; [done|]. eexists [], []. by rewrite !app_nil_r.
Qed.

(** X9.  Whatever the handlers are called with, in whatever order: the bot's
    own JID stays; what was sent and what was logged only grow, at the end;
    and every message sent in between is a chat message with a body, sent
    under the bot's own JID. *)
Theorem run_grows calls st :
  self_jid (run salt parse_jid calls st) = self_jid st
  ∧ ∃ new lines,
      sent (run salt parse_jid calls st) = sent st ++ new
      ∧ Forall (chat_from (self_jid st)) new
      ∧ log (run salt parse_jid calls st) = log st ++ lines.
Proof.
  revert st. induction calls as [|c calls IH]; intros st.
  - simpl. split; [done|]. eexists [], []. by rewrite !app_nil_r.
  - unfold run in *. simpl.
    destruct (run_call_grows st c) as (Hj & new & lines & Hs & Hn & Hl).
    destruct (IH (run_call salt parse_jid st c))
      as (Hj' & new' & lines' & Hs' & Hn' & Hl').
    split; [congruence|]. exists (new ++ new'), (lines ++ lines').
    rewrite Hs', Hs, Hl', Hl, !app_assoc. split_and!; [done| |done].
    apply Forall_app. split; [done|]. by rewrite <-Hj.
Qed.

(** X10.  In every state reached from [__init__] only bare JIDs have
    presence records; so a roster item whose JID carries a resource is never
    in the online set, whatever sessions are available. *)
Theorem records_only_for_bare_jids me r0 calls :
  (∀ k, isPresent (presence (run salt parse_jid calls (new_bot me r0))) k →
        resource k = None)
  ∧ ∀ r x, x ∈ online_users r (presence (run salt parse_jid calls (new_bot me r0))) →
           resource (jid x) = None.
Proof.
  assert (∀ k, isPresent (presence (run salt parse_jid calls (new_bot me r0))) k →
               resource k = None) as Hbare.
  { intros k (r & pre & c & post & _ & Hc & _)%isPresent_live.
    destruct c; try done. by destruct Hc as (_ & <- & _). }
  split; [done|]. intros r x (_ & _ & Hx)%elem_of_online_users.
  by apply Hbare.
Qed.

Lemma touch_both_twice xs p : touch_both xs (touch_both xs p) = touch_both xs p.
Proof.
  apply touch_both_known. intros x Hx Hb. rewrite touch_both_lookup.
  destruct (p !! jid x); [by eexists|].
  rewrite decide_True; [by eexists|]. apply Exists_exists. by exists x.
Qed.

(** X11.  Asking for the online set a second time gives the same list and
    leaves the store as the first call left it; only the log grows. *)
Theorem get_online_users_twice st :
  ∃ ret st1 st2,
    get_online_users st = Ok ret st1
    ∧ get_online_users st1 = Ok ret st2
    ∧ presence st2 = presence st1
    ∧ roster st2 = roster st
    ∧ sent st2 = sent st
    ∧ length (log st2) = S (S (length (log st))).
Proof.
  rewrite get_online_users_run. eexists _, _, _. split; [done|].
  rewrite get_online_users_run. simpl.
  rewrite (online_users_records _ (presence st) (touch_both _ _))
    by (intros k; apply records_touch_both).
  split; [done|]. simpl. rewrite touch_both_twice.
  split_and!; [done..|]. rewrite !length_app. simpl. lia.
Qed.

(** X13.  [handle_message] changes no presence record, so the online set is
    the same after it, and keeps the bot's JID.  It changes the roster only
    for a ['-nick '] request that has a name, and then only by the update
    of the sender's entry; a stanza without a body changes nothing at
    all. *)
Theorem handle_message_frame stanza st :
  ∃ o,
    handle_message salt parse_jid stanza st = o
    ∧ self_jid (final o) = self_jid st
    ∧ (∀ k r, session (presence (final o)) k r = session (presence st) k r)
    ∧ (∀ r, online_users r (presence (final o)) = online_users r (presence st))
    ∧ (roster (final o) = roster st
       ∨ ∃ body nick,
           Message.body stanza = Some body
           ∧ startswith body (lit "-nick ") = true
           ∧ split_none_1 body !! 1%nat = Some nick
           ∧ roster (final o)
             = update_item (bare (Message.from_jid stanza)) nick (roster st))
    ∧ (Message.body stanza = None → o = Ok true st).
Proof.
  eexists. split; [reflexivity|].
  pose proof (handle_message_records salt parse_jid stanza st) as Hrec.
  split_and!.
  - destruct (run_call_grows st (message stanza)) as [Hj _]. exact Hj.
  - intros k r. unfold session. by rewrite Hrec.
  - intros r. apply online_users_records. exact Hrec.
  - rewrite handle_message_run.
    destruct (Message.body stanza) as [body|]; [|by left].
    cbv zeta. case_decide; [by left|].
    destruct (startswith body (lit "-nick ")) eqn:Hs; [|by left].
    destruct (split_none_1 body !! 1%nat) as [nick|] eqn:Hn; [|by left].
    right. by exists body, nick.
  - intros Hb. rewrite handle_message_run. by rewrite Hb.
Qed.

End Further.

(** ** The subscription handshake *)



(** The handlers call [get_name] with JIDs only: no run depends on what
    [JID(text)] makes of a text. *)
Lemma run_any_parser salt parse parse' calls st :
  run salt parse calls st = run salt parse' calls st.
Proof. reflexivity. Qed.


(** ** Witnesses of the further properties *)

Lemma accepted_here j : accepted (here j).
Proof. unfold accepted, here. simpl. apply list_elem_of_further, list_elem_of_here. Qed.

(** X4 on an empty body from Alice's phone: Bob gets ['[Alice] ']. *)
Lemma handle_message_relays_witness :
  lit "" ≠ lit "ping" ∧ startswith (lit "") (lit "-nick ") = false
  ∧ ∃ st',
      handle_message example_salt no_text (says alice_phone "") example_state
      = Ok true st'
      ∧ sent st' = [chat bot_jid bob (lit "[Alice] ")].
Proof.
  assert (lit "" ≠ lit "ping") as Hne by (intros H; discriminate H).
  split; [exact Hne|]. split; [reflexivity|].
  destruct (handle_message_relays example_salt no_text example_state (Some (lit "chat"))
              alice_phone bot_jid (lit "") Hne eq_refl)
    as (st' & Hrun & Hsent & _).
  exists st'. split; [exact Hrun|]. rewrite Hsent. vm_compute. reflexivity.
Defined.

(** X6 on Alice's phone announcing itself and then going away. *)
Lemma handle_presence_available_overwrites_witness :
  accepted (here alice_phone)
  ∧ accepted (Presence.mk None alice_phone (Some (lit "away")) None 5)
  ∧ session
      (presence
         (final (handle_presence_available
                   (Presence.mk None alice_phone (Some (lit "away")) None 5)
                   (final (handle_presence_available (here alice_phone)
                             (new_bot bot_jid example_roster))))))
      alice (Some (lit "phone"))
    = Some (mkInfo (Some (lit "away")) None 5).
Proof.
  pose proof (accepted_here alice_phone) as H1.
  assert (accepted (Presence.mk None alice_phone (Some (lit "away")) None 5))
    as H2 by exact (accepted_here alice_phone).
  split; [exact H1|]. split; [exact H2|].
  destruct (handle_presence_available_overwrites
              (new_bot bot_jid example_roster) (here alice_phone)
              (Presence.mk None alice_phone (Some (lit "away")) None 5)
              H1 H2 eq_refl) as [-> _].
  vm_compute. reflexivity.
Defined.

(** X7 on Alice's phone coming and going at a new bot. *)
Lemma available_then_unavailable_witness :
  accepted (here alice_phone)
  ∧ session (presence (new_bot bot_jid example_roster))
      (bare (Presence.from_jid (here alice_phone)))
      (resource (Presence.from_jid (here alice_phone))) = None
  ∧ ∃ st1 st2,
      handle_presence_available (here alice_phone)
        (new_bot bot_jid example_roster) = Ok true st1
      ∧ handle_presence_unavailable (gone alice_phone) st1 = Ok true st2
      ∧ presence st2 !! alice = Some ∅.
Proof.
  pose proof (accepted_here alice_phone) as H1.
  split; [exact H1|]. split; [reflexivity|].
  destruct (available_then_unavailable (new_bot bot_jid example_roster)
              (here alice_phone) (gone alice_phone) H1 eq_refl eq_refl)
    as (st1 & st2 & Ha & Hu & Hp & _).
  exists st1, st2. split; [exact Ha|]. split; [exact Hu|].
  rewrite Hp. vm_compute. reflexivity.
Defined.

(** X8 on Alice's only session going away: Alice is present no more. *)
Lemma handle_presence_unavailable_present_witness :
  session (presence example_state) (bare (Presence.from_jid (gone alice_phone)))
    (resource (Presence.from_jid (gone alice_phone)))
  = Some (mkInfo None None 0)
  ∧ ∃ st',
      handle_presence_unavailable (gone alice_phone) example_state = Ok true st'
      ∧ session (presence st') alice (Some (lit "phone")) = None
      ∧ jid <$> online_users (roster st') (presence st') = [bob].
Proof.
  split; [vm_compute; reflexivity|].
  destruct (handle_presence_unavailable_present example_state (gone alice_phone)
              (mkInfo None None 0) eq_refl)
    as (st' & Hrun & Hnone & _).
  exists st'. split; [exact Hrun|]. split; [exact Hnone|].
  pose proof Hrun as Hst. vm_compute in Hst. injection Hst as <-.
  vm_compute. reflexivity.
Defined.
